(** * MoodChatAI: the mood-tracking analytics engine of [backend.py]

    A shallow embedding of class [MoodChatAI] (log, statistics, alerting,
    report synthesis) and the properties its specification states.

    Modelling conventions.
    - [self.df] is a list of rows in append order; methods that only read
      it take it as an argument, [log_mood] and [__init__] thread the
      engine state (in-memory frame and durable file) explicitly.
    - Python exceptions are values of [exn]; a computation that can raise
      returns [result].
    - [datetime] values are integers counting microseconds from
      0001-01-01 00:00 ([datetime.min]); the clock reading of
      [datetime.today()] is an explicit argument.
    - Python [float] is binary64. Every float comparison of the source is
      between quotients of row counts (and the constants 0, 30, 50, 70),
      whose exact values differ by far more than a rounding error for any
      frame that fits in memory, so comparisons are decided on the exact
      rationals [Q]. Where the program rounds a float to show or store it
      (the [.0f] of the alert message, the [round(..., 1)] of
      positive_percentage), a rounding error can tip the result: there the
      binary64 value is computed with the primitive floats and the
      rounding is taken on it. The mean of the confidence column is summed
      by pandas in an order of its own; avg_confidence is rounded from the
      exact mean.
    - The user's entry text is a sequence of Unicode code points (so that
      slicing and [strip] are exact); labels, messages and keys, which
      the program only compares for equality, are [string]s holding the
      UTF-8 form of the source literal. *)

From Stdlib Require Import ZArith QArith Qround Lia Lqa.
From Stdlib Require PrimFloat FloatOps SpecFloat Uint63.
From stdpp Require Import base decidable option list strings gmap pretty sorting.

(** ** Exceptions and fallible computations *)

Inductive exn :=
  | FileNotFoundError
  | ValueError
  | KeyError (key : string)
  | TypeError
  | IndexError
  | OSError
  | OverflowError
  | RuntimeError.

Inductive result (A : Type) :=
  | Ok (a : A)
  | Raise (e : exn).
Arguments Ok {A} a.
Arguments Raise {A} e.

#[global] Instance result_ret : MRet result := λ A a, Ok a.
#[global] Instance result_bind : MBind result := λ A B f m,
  match m with
  | Ok a => f a
  | Raise e => Raise e
  end.
#[global] Instance result_fmap : FMap result := λ A B f m,
  match m with
  | Ok a => Ok (f a)
  | Raise e => Raise e
  end.

(** [try: body except FileNotFoundError: handler] *)
Definition try_except_FileNotFoundError {A} (body handler : result A) : result A :=
  match body with
  | Raise FileNotFoundError => handler
  | other => other
  end.

(** ** Numbers *)

Definition Qnat (n : nat) : Q := inject_Z (Z.of_nat n).

Definition Qlt_bool (a b : Q) : bool := negb (Qle_bool b a).

(** Nearest integer, ties to the even one: the rounding of [round] and of
    the [.0f] format. *)
Definition round_half_even (q : Q) : Z :=
  let f := Qfloor q in
  let r := (q - inject_Z f)%Q in
  match (r ?= 1 # 2)%Q with
  | Lt => f
  | Gt => (f + 1)%Z
  | Eq => if Z.even f then f else (f + 1)%Z
  end.

(** Rounding of an exact value to [ndigits] decimals, ties to even:
    [round(q, ndigits)] without the rounding errors of binary64. It rounds
    the mean of the confidence column, whose binary64 sum is internal to
    pandas. *)
Definition py_round (q : Q) (ndigits : nat) : Q :=
  let scale := (10 ^ Z.of_nat ndigits)%Z in
  Qred (inject_Z (round_half_even (q * inject_Z scale)) / inject_Z scale).

(** *** Binary64 values *)

(** The rational a binary64 number stands for (0 for infinities and NaN,
    which the program never produces). *)
Definition Q_of_b64 (x : PrimFloat.float) : Q :=
  match FloatOps.Prim2SF x with
  | SpecFloat.S754_finite negative m e =>
      let v := (inject_Z (Z.pos m) * 2 ^ e)%Q in
      if negative then (- v)%Q else v
  | _ => 0%Q
  end.

(** [float(z)] for an integer below 2^53 in magnitude. *)
Definition b64_of_Z (z : Z) : PrimFloat.float :=
  if (z <? 0)%Z then PrimFloat.opp (PrimFloat.of_uint63 (Uint63.of_Z (- z)))
  else PrimFloat.of_uint63 (Uint63.of_Z z).

Definition b64_of_nat (n : nat) : PrimFloat.float := b64_of_Z (Z.of_nat n).

(** [(k / n) * 100] as the program computes it. *)
Definition percentage_b64 (k n : nat) : PrimFloat.float :=
  PrimFloat.mul (PrimFloat.div (b64_of_nat k) (b64_of_nat n)) (b64_of_Z 100).

(** [f"{x:.0f}"], where [x] is the binary64 value the program holds for
    the quantity [exact]. The text is the integer nearest to [x] (ties to
    even). The rounding error of [x] is far smaller than 1/2 for any frame
    that fits in memory, so that integer is within 1/2 of [exact]; the
    last branch only makes the function total beyond that size. *)
Definition format_0f (exact : Q) (x : PrimFloat.float) : string :=
  let shown := round_half_even (Q_of_b64 x) in
  if Qle_bool (inject_Z shown - exact) (1 # 2) && Qle_bool (exact - inject_Z shown) (1 # 2)
  then pretty shown
  else pretty (round_half_even exact).

(** [round(x, ndigits)] on a binary64 [x]: the binary64 nearest to the
    decimal with [ndigits] digits nearest to [x] (ties to even). *)
Definition round_b64 (x : PrimFloat.float) (ndigits : nat) : PrimFloat.float :=
  let scale := (10 ^ Z.of_nat ndigits)%Z in
  PrimFloat.div (b64_of_Z (round_half_even (Q_of_b64 x * inject_Z scale))) (b64_of_Z scale).

(** The value of [round(x, 1)], where [x] is the binary64 value the
    program holds for the percentage [exact]. It lies between the
    integers around [exact] and within 0.05 + 10^-12 of it for any frame
    that fits in memory; the last branch only makes the function total
    beyond that size. *)
Definition round_percentage (exact : Q) (x : PrimFloat.float) : Q :=
  let r := Q_of_b64 (round_b64 x 1) in
  if Qle_bool (inject_Z (Qfloor exact)) r && Qle_bool r (inject_Z (Qceiling exact))
     && Qle_bool (r - exact) ((1 # 20) + (1 # 1000000000000))
     && Qle_bool (exact - r) ((1 # 20) + (1 # 1000000000000))
  then r
  else py_round exact 1.

(** ** Text: [str.strip], slices *)

(** [str.isspace] on one code point (the Unicode white-space characters). *)
Definition isspace (c : N) : bool :=
  ((9 <=? c) && (c <=? 13) || (28 <=? c) && (c <=? 32)
   || (c =? 133) || (c =? 160) || (c =? 5760)
   || (8192 <=? c) && (c <=? 8202)
   || (c =? 8232) || (c =? 8233) || (c =? 8239) || (c =? 8287)
   || (c =? 12288))%N.

Fixpoint lstrip (s : list N) : list N :=
  match s with
  | c :: s' => if isspace c then lstrip s' else s
  | [] => []
  end.

Definition strip (s : list N) : list N := reverse (lstrip (reverse (lstrip s))).

(** ** The mood log *)

Record MoodRecord := {
  date : Z;
  entry : list N;
  mood : string;
  confidence : Q;
  advice : string;
  alert_level : string
}.

(** The microseconds of [d] days. *)
Definition timedelta_days (d : Z) : Z := (d * 86400000000)%Z.

(** [timedelta(days=d)], which accepts at most 999999999 days either
    way. *)
Definition timedelta (d : Z) : result Z :=
  if decide (-999999999 ≤ d ≤ 999999999)%Z then Ok (timedelta_days d)
  else Raise OverflowError.

(** [datetime.max], 9999-12-31 23:59:59.999999. *)
Definition DATETIME_MAX : Z := (3652059 * 86400000000 - 1)%Z.

(** [t - delta] on a datetime, which must stay within
    [datetime.min] .. [datetime.max]. *)
Definition datetime_sub (t delta : Z) : result Z :=
  if decide (0 ≤ t - delta ≤ DATETIME_MAX)%Z then Ok (t - delta)%Z
  else Raise OverflowError.

(** [sum(frame['mood'] == label)] *)
Definition count_mood (label : string) (frame : list MoodRecord) : nat :=
  length (filter (λ r, mood r = label) frame).

(** [frame[frame['date'] >= cutoff]] *)
Definition since (cutoff : Z) (frame : list MoodRecord) : list MoodRecord :=
  filter (λ r, (cutoff ≤ date r)%Z) frame.

(** [frame.tail(n)] *)
Definition tail (n : nat) (frame : list MoodRecord) : list MoodRecord :=
  drop (length frame - n) frame.

(** [frame.iloc[:-n]] *)
Definition iloc_upto_minus (n : nat) (frame : list MoodRecord) : list MoodRecord :=
  take (length frame - n) frame.

(** ** Alert engine *)

(** The clock reads a date long after the first two weeks of year 1, so
    [today - timedelta(days=14)] is in range. *)
Definition check_alert (df : list MoodRecord) (today : Z) : bool * string * string :=
  if decide (length df < 7) then (false, "LOW", "Not enough data yet.")
  else
    let fourteen_days_ago := (today - timedelta_days 14)%Z in
    let recent_df := since fourteen_days_ago df in
    if decide (length recent_df < 7) then
      (false, "LOW", "Not enough data for 2-week analysis.")
    else
      let negative_count := count_mood "NEGATIVE" recent_df in
      let total_count := length recent_df in
      let negative_percentage := (Qnat negative_count / Qnat total_count * 100)%Q in
      let negative_percentage_b64 := percentage_b64 negative_count total_count in
      if Qle_bool 70 negative_percentage then
        (true, "CRITICAL",
         format_0f negative_percentage negative_percentage_b64
         +:+ "% negative days detected.")
      else if Qle_bool 50 negative_percentage then
        (true, "HIGH",
         format_0f negative_percentage negative_percentage_b64
         +:+ "% negative days detected.")
      else if Qle_bool 30 negative_percentage then
        (true, "MEDIUM",
         format_0f negative_percentage negative_percentage_b64
         +:+ "% negative days detected.")
      else (false, "LOW", "Mood is stable.").

(** ** Statistics engine *)

(** Values held by the statistics dictionary. *)
Inductive pyval :=
  | VInt (z : Z)
  | VFloat (q : Q)
  | VStr (s : string).

(** The "Calculate trend" block of [get_mood_stats]. *)
Definition trend_of (df : list MoodRecord) : string :=
  if decide (2 ≤ length df) then
    let recent := tail 7 df in
    let past := iloc_upto_minus 7 df in
    let recent_positive := (Qnat (count_mood "POSITIVE" recent) / Qnat (length recent))%Q in
    let past_positive :=
      if decide (0 < length past) then
        (Qnat (count_mood "POSITIVE" past) / Qnat (length past))%Q
      else 0%Q in
    if Qlt_bool past_positive recent_positive then "Improving 📈"
    else if Qlt_bool recent_positive past_positive then "Declining 📉"
    else "Stable ➡️"
  else "Not enough data".

(** [frame['confidence'].mean()] *)
Definition mean_confidence (frame : list MoodRecord) : Q :=
  (foldr Qplus 0 (confidence <$> frame) / Qnat (length frame))%Q.

(** The result is a Python dict; the order of its keys is not modelled. *)
Definition get_mood_stats (df : list MoodRecord) : gmap string pyval :=
  if decide (length df = 0) then
    <["total_entries" := VInt 0]> (
    <["positive_days" := VInt 0]> (
    <["negative_days" := VInt 0]> (
    <["neutral_days" := VInt 0]> (
    <["trend" := VStr "No data"]> ∅))))
  else
    let total := length df in
    let positive := count_mood "POSITIVE" df in
    let negative := count_mood "NEGATIVE" df in
    let neutral := count_mood "NEUTRAL" df in
    let trend := trend_of df in
    <["total_entries" := VInt (Z.of_nat total)]> (
    <["positive_days" := VInt (Z.of_nat positive)]> (
    <["negative_days" := VInt (Z.of_nat negative)]> (
    <["neutral_days" := VInt (Z.of_nat neutral)]> (
    <["positive_percentage" :=
        if decide (0 < total)
        then VFloat (round_percentage (Qnat positive / Qnat total * 100)
                                      (percentage_b64 positive total))
        else VInt 0]> (
    <["trend" := VStr trend]> (
    <["avg_confidence" :=
        if decide (0 < length df)
        then VFloat (py_round (mean_confidence df) 3)
        else VInt 0]> ∅)))))).

(** ** Report synthesizer *)

(** [stats[key]] *)
Definition getitem (stats : gmap string pyval) (key : string) : result pyval :=
  match stats !! key with
  | Some v => Ok v
  | None => Raise (KeyError key)
  end.

(** The numeric value of an operand of [<], [>=], [<=] against a number. *)
Definition as_number (v : pyval) : result Q :=
  match v with
  | VInt z => Ok (inject_Z z)
  | VFloat q => Ok q
  | VStr _ => Raise TypeError
  end.

Definition _get_recommendation (stats : gmap string pyval) : result string :=
  total_entries ← getitem stats "total_entries" ≫= as_number;
  if Qlt_bool total_entries 7 then
    Ok "Keep logging your mood daily to get personalized insights!"
  else
    positive_percentage ← getitem stats "positive_percentage" ≫= as_number;
    if Qle_bool 70 positive_percentage then
      Ok "Great work! Maintain your current positive momentum! 🎉"
    else
      positive_percentage ← getitem stats "positive_percentage" ≫= as_number;
      if Qle_bool positive_percentage 30 then
        Ok "Consider reaching out to a mental health professional. Your wellbeing matters! 💙"
      else
        Ok "Your mood is balanced. Keep tracking and stay mindful!".

(** ** History *)

(** Insertion of a numbered row into rows sorted by date. Among rows of
    equal date [before i j] tells whether row [i] goes before row [j]. *)
Fixpoint insert_by_date (before : nat → nat → bool) (r : nat * MoodRecord)
    (sorted : list (nat * MoodRecord)) : list (nat * MoodRecord) :=
  match sorted with
  | [] => [r]
  | x :: rest =>
      if decide (date r.2 < date x.2)%Z then r :: sorted
      else if decide (date r.2 = date x.2) then
        if before r.1 x.1 then r :: sorted
        else x :: insert_by_date before r rest
      else x :: insert_by_date before r rest
  end.

(** [frame.sort_values('date')]. pandas sorts with a quicksort that is not
    stable: the order in which rows of equal date come back is decided by
    that routine. It is given here by [before], on the positions the rows
    have in [frame]; every order of the rows of equal date is the result
    for some [before]. *)
Definition sort_values_date (before : nat → nat → bool) (frame : list MoodRecord)
    : list MoodRecord :=
  (foldr (insert_by_date before) [] (imap (λ i r, (i, r)) frame)).*2.

Definition get_mood_history (before : nat → nat → bool) (df : list MoodRecord)
    (days : Z) (today : Z) : result (list MoodRecord) :=
  delta ← timedelta days;
  cutoff ← datetime_sub today delta;
  Ok (sort_values_date before (since cutoff df)).

(** ** Collaborators outside the repository

    The two [transformers] pipelines, [pd.to_datetime] on a column of
    text ([None] when it rejects the column), the date rendering of
    [DataFrame.to_csv] and [datetime.isoformat]. A pipeline call returns
    the first element of the list the library returns, as a
    (label, score) pair, or raises. *)
Class Externals := {
  sentiment_analyzer : list N → result (string * Q);
  emotion_analyzer : list N → result (string * Q);
  pd_to_datetime : list string → option (list Z);
  csv_date : Z → string;
  isoformat : Z → string
}.

(** One row of the durable file: the date is text until it is parsed. *)
Record csv_row := {
  row_date : string;
  row_entry : list N;
  row_mood : string;
  row_confidence : Q;
  row_advice : string;
  row_alert_level : string
}.

(** The engine: [self.df] and the content of the file at [self.csv_file]
    ([None] when the file does not exist). *)
Record engine := {
  self_df : list MoodRecord;
  durable : option (list csv_row)
}.

(** How the environment answers a write of the durable file: it succeeds,
    or it raises and leaves the file with some content. *)
Inductive write_outcome :=
  | WriteOk
  | WriteFails (e : exn) (left_behind : option (list csv_row)).

Definition advice_map : gmap string (list string) :=
  <["POSITIVE" := [
      "Amazing! Keep channeling this positive energy! 🌟";
      "Your optimism is contagious. Share it with others!";
      "Keep doing what you're doing. You're thriving!"]]> (
  <["NEGATIVE" := [
      "It's okay to feel down. Consider talking to someone. 💙";
      "Take a 15-minute walk or practice deep breathing.";
      "Reach out to a friend or therapist. You're not alone.";
      "Try journaling or meditation to process these feelings."]]> (
  <["NEUTRAL" := [
      "Keep journaling daily for better insights! 📝";
      "How can you make today a bit better?";
      "Your feelings matter. Keep tracking them."]]> ∅)).

(** Map model output to mood labels: the conditional expression of
    [analyze_mood]. *)
Definition mood_of (label : string) : string :=
  if String.eqb label "POSITIVE" then "POSITIVE"
  else if String.eqb label "NEGATIVE" then "NEGATIVE"
  else "NEUTRAL".

(** [random.choice(seq)], the draw being [rnd]. *)
Definition random_choice (rnd : nat) (seq : list string) : result string :=
  match seq !! (rnd `mod` length seq) with
  | Some x => Ok x
  | None => Raise IndexError
  end.

Section Engine.
Context `{!Externals}.

(** [pd.read_csv(csv_file)] *)
Definition read_csv (file : option (list csv_row)) : result (list csv_row) :=
  match file with
  | None => Raise FileNotFoundError
  | Some rows => Ok rows
  end.

(** [pd.to_datetime(column)], which raises on a column it cannot parse. *)
Definition to_datetime (column : list string) : result (list Z) :=
  match pd_to_datetime column with
  | Some dates => Ok dates
  | None => Raise ValueError
  end.

Definition with_date (row : csv_row) (d : Z) : MoodRecord :=
  {| date := d; entry := row_entry row; mood := row_mood row;
     confidence := row_confidence row; advice := row_advice row;
     alert_level := row_alert_level row |}.

(** [__init__], the part that loads or creates the log. *)
Definition init (file : option (list csv_row)) : result engine :=
  df ← try_except_FileNotFoundError
         (rows ← read_csv file;
          dates ← to_datetime (row_date <$> rows);
          Ok (zip_with with_date rows dates))
         (Ok []);
  Ok {| self_df := df; durable := file |}.

Definition analyze_mood (entry : list N) (rnd : nat) : result (option string * Q * string) :=
  if decide (strip entry = []) then
    Ok (None, 0%Q, "Please enter your feelings to get started.")
  else
    sentiment_result ← sentiment_analyzer (take 512 entry);
    emotion_result ← emotion_analyzer (take 512 entry);
    let label := emotion_result.1 in
    let confidence := emotion_result.2 in
    let mood_label := mood_of label in
    advice ← random_choice rnd (default ["Stay mindful."] (advice_map !! mood_label));
    Ok (Some mood_label, confidence, advice).

Definition to_row (r : MoodRecord) : csv_row :=
  {| row_date := csv_date (date r); row_entry := entry r; row_mood := mood r;
     row_confidence := confidence r; row_advice := advice r;
     row_alert_level := alert_level r |}.

(** [frame.to_csv(csv_file, index=False)] *)
Definition to_csv (frame : list MoodRecord) (w : write_outcome)
    (file : option (list csv_row)) : result unit * option (list csv_row) :=
  match w with
  | WriteOk => (Ok (), Some (to_row <$> frame))
  | WriteFails e left_behind => (Raise e, left_behind)
  end.

(** [log_mood]: the result (or the exception that escapes) and the
    engine as the call leaves it. *)
Definition log_mood (entry : list N) (rnd : nat) (today : Z) (w : write_outcome)
    (self : engine) : result (option string * Q * string) * engine :=
  match analyze_mood entry rnd with
  | Raise e => (Raise e, self)
  | Ok (None, _, advice) => (Ok (None, 0%Q, advice), self)
  | Ok (Some mood_label, confidence, advice) =>
      let new_entry :=
        {| date := today; entry := take 200 entry; mood := mood_label;
           confidence := confidence; advice := advice; alert_level := "LOW" |} in
      let self1 := {| self_df := self_df self ++ [new_entry]; durable := durable self |} in
      match to_csv (self_df self1) w (durable self1) with
      | (Ok _, file) =>
          (Ok (Some mood_label, confidence, advice),
           {| self_df := self_df self1; durable := file |})
      | (Raise e, file) =>
          (Raise e, {| self_df := self_df self1; durable := file |})
      end
  end.

Record Report := {
  timestamp : string;
  statistics : gmap string pyval;
  alert : bool * string * string;
  recommendation : string
}.

(** [export_report]; the clock is read once by [check_alert] and once
    for the time stamp. *)
Definition export_report (df : list MoodRecord) (today_alert today_stamp : Z) : result Report :=
  let stats := get_mood_stats df in
  let alert := check_alert df today_alert in
  recommendation ← _get_recommendation stats;
  Ok {| timestamp := isoformat today_stamp; statistics := stats;
        alert := alert; recommendation := recommendation |}.

(** The calls a client can make on an engine. *)
Inductive call :=
  | LogMood (entry : list N) (rnd : nat) (today : Z) (w : write_outcome)
  | CheckAlert (today : Z)
  | GetMoodStats
  | GetMoodHistory (before : nat → nat → bool) (days today : Z)
  | ExportReport (today_alert today_stamp : Z).

(** What a call returns, kept only to run it. *)
Inductive answer :=
  | ALogMood (r : result (option string * Q * string))
  | ACheckAlert (r : bool * string * string)
  | AStats (r : gmap string pyval)
  | AHistory (r : result (list MoodRecord))
  | AReport (r : result Report).

Definition perform (c : call) (self : engine) : answer * engine :=
  match c with
  | LogMood entry rnd today w =>
      let '(r, self') := log_mood entry rnd today w self in (ALogMood r, self')
  | CheckAlert today => (ACheckAlert (check_alert (self_df self) today), self)
  | GetMoodStats => (AStats (get_mood_stats (self_df self)), self)
  | GetMoodHistory before days today =>
      (AHistory (get_mood_history before (self_df self) days today), self)
  | ExportReport t1 t2 => (AReport (export_report (self_df self) t1 t2), self)
  end.

(** The engine after a sequence of calls. *)
Definition perform_all (cs : list call) (self : engine) : engine :=
  foldl (λ s c, (perform c s).2) self cs.
End Engine.

(** ** The pages of [app.py]

    A page is a script that calls Streamlit to show things. The calls
    that show something are recorded in order as [widget]s; layout
    containers ([st.columns], [st.spinner]) show nothing of their own and
    are not recorded. A script that raises keeps what it has shown so
    far. *)

Inductive widget :=
  | StError (body : string)
  | StWarning (body : string)
  | StInfo (body : string)
  | StSuccess (body : string)
  | StMarkdown (body : string)
  | StMetric (label : string) (value : option pyval) (delta : option string).

Definition page (A : Type) : Type := list widget * result A.

#[global] Instance page_ret : MRet page := λ A a, ([], Ok a).
#[global] Instance page_bind : MBind page := λ A B f m,
  match m with
  | (shown, Ok a) => let '(more, r) := f a in (shown ++ more, r)
  | (shown, Raise e) => (shown, Raise e)
  end.

Definition show (w : widget) : page unit := ([w], Ok ()).

Definition eval {A} (r : result A) : page A := ([], r).

(** The line feed of the [\n] escapes. *)
Definition LF : string := String (Ascii.ascii_of_nat 10) "".

(** Formatting done by Python itself: [f"{x:.1f}"], [f"{x:.1%}"] and
    [strftime("%Y-%m-%d")]. *)
Class Formatting := {
  format_1f : Q → string;
  format_pct1 : Q → string;
  strftime_ymd : Z → string
}.

(** The operand of a float format code; text is refused with ValueError. *)
Definition format_arg (v : pyval) : result Q :=
  match v with
  | VInt z => Ok (inject_Z z)
  | VFloat q => Ok q
  | VStr _ => Raise ValueError
  end.

(** ["😊" if mood == "POSITIVE" else "😔" if mood == "NEGATIVE" else "😐"] *)
Definition mood_emoji (mood : option string) : string :=
  if bool_decide (mood = Some "POSITIVE") then "😊"
  else if bool_decide (mood = Some "NEGATIVE") then "😔"
  else "😐".

(** Health Alert page: the banner shown for the answer of [check_alert]. *)
Definition health_alert_banner (answer : bool * string * string) : list widget :=
  let '(alert, severity, msg) := answer in
  if alert then
    [ if String.eqb severity "CRITICAL" then StError "🚨 **CRITICAL ALERT**"
      else if String.eqb severity "HIGH" then StWarning "⚠️ **HIGH ALERT**"
      else StInfo "ℹ️ **MEDIUM ALERT**";
      StMarkdown ("**Status:** " +:+ msg) ]
  else [StSuccess "✅ **Your mood is stable. Great job!**"].

(** Log Mood page: the alert shown after an entry was logged. *)
Definition alert_after_logging (answer : bool * string * string) : list widget :=
  let '(alert, severity, msg) := answer in
  if alert then
    if String.eqb severity "CRITICAL" then
      [StError ("🚨 **CRITICAL ALERT:** " +:+ msg +:+ LF +:+ LF
                +:+ "Please reach out to a mental health professional.")]
    else if String.eqb severity "HIGH" then
      [StWarning ("⚠️ **HIGH ALERT:** " +:+ msg +:+ LF +:+ LF
                  +:+ "Consider speaking with a therapist.")]
    else [StInfo ("ℹ️ **Gentle Reminder:** " +:+ msg)]
  else [].

Section Pages.
Context `{!Externals} `{!Formatting}.

(** Log Mood page: what pressing "Analyze Mood" does. The clock is read
    by [log_mood], for the date card and by [check_alert]. *)
Definition on_analyze_mood (mood_entry : list N) (rnd : nat) (today_log : Z)
    (w : write_outcome) (today_card today_alert : Z) (ai : engine)
    : page unit * engine :=
  if decide (strip mood_entry = []) then
    (show (StError "❌ Please write something about your feelings first!"), ai)
  else
    match log_mood mood_entry rnd today_log w ai with
    | (Raise e, ai') => (eval (Raise e), ai')
    | (Ok (mood, confidence, advice), ai') =>
        ((_ ← show (StSuccess "✅ Mood logged successfully!");
          _ ← show (StMetric (mood_emoji mood +:+ " Detected Mood") (VStr <$> mood) None);
          _ ← show (StMetric "🎯 Confidence" (Some (VStr (format_pct1 confidence))) None);
          _ ← show (StMetric "📅 Date" (Some (VStr (strftime_ymd today_card))) None);
          _ ← show (StInfo ("💡 **Suggestion:** " +:+ advice));
          (alert_after_logging (check_alert (self_df ai') today_alert), Ok ())),
         ai')
    end.

(** Dashboard page: the four statistics cards and the rule below them. *)
Definition dashboard_cards (stats : gmap string pyval) : page unit :=
  total_entries ← eval (getitem stats "total_entries");
  total_number ← eval (getitem stats "total_entries" ≫= as_number);
  _ ← show (StMetric "📚 Total Entries" (Some total_entries)
              (Some (if Qlt_bool total_number 30 then "Keep tracking!"
                     else "Great consistency!")));
  positive_days ← eval (getitem stats "positive_days");
  positive_percentage ← eval (getitem stats "positive_percentage" ≫= format_arg);
  _ ← show (StMetric "😊 Positive Days" (Some positive_days)
              (Some (format_1f positive_percentage +:+ "%")));
  trend ← eval (getitem stats "trend");
  _ ← show (StMetric "📈 Trend" (Some trend) None);
  avg_confidence ← eval (getitem stats "avg_confidence" ≫= format_arg);
  _ ← show (StMetric "🎯 AI Accuracy" (Some (VStr (format_pct1 avg_confidence)))
              (Some "High confidence"));
  show (StMarkdown "---").
End Pages.

Definition sample_formatting : Formatting :=
  {| format_1f := λ q, pretty (Qfloor q) +:+ ".0";
     format_pct1 := λ q, pretty (Qfloor (q * 100)) +:+ ".0%";
     strftime_ymd := λ _, "2024-01-01" |}.

(** ** Predicates on engines and calls *)

(** The file holds exactly the rows in memory, as [to_csv] writes them. *)
Definition in_sync `{!Externals} (self : engine) : Prop :=
  durable self = Some (to_row <$> self_df self).

(** The call does not meet a failing write. *)
Definition write_succeeds (c : call) : Prop :=
  match c with
  | LogMood _ _ _ w => w = WriteOk
  | _ => True
  end.

(** The rows are in non-decreasing order of date. *)
Definition date_ordered (frame : list MoodRecord) : Prop :=
  StronglySorted (λ a b, (date a ≤ date b)%Z) frame.

(** ** Sample data *)

Definition day (n : Z) : Z := timedelta_days n.

Definition row (d : Z) (m : string) : MoodRecord :=
  {| date := day d; entry := [104; 105]%N; mood := m; confidence := 9 # 10;
     advice := "Stay mindful."; alert_level := "LOW" |}.

(** Two old rows, then ten rows on days 25 and 26 of which [k] are
    NEGATIVE. *)
Definition sample_log (k : nat) : list MoodRecord :=
  [row 1 "POSITIVE"; row 2 "NEUTRAL"]
  ++ replicate k (row 25 "NEGATIVE") ++ replicate (10 - k) (row 26 "POSITIVE").

Definition sample_engine : engine :=
  {| self_df := [row 1 "POSITIVE"]; durable := Some [] |}.

Definition bad_row : csv_row :=
  {| row_date := "yesterday-ish"; row_entry := [104; 105]%N; row_mood := "POSITIVE";
     row_confidence := 9 # 10; row_advice := "Stay mindful."; row_alert_level := "LOW" |}.

Definition sample_externals : Externals :=
  {| sentiment_analyzer := λ _, Ok ("POSITIVE", 9 # 10);
     emotion_analyzer := λ t, Ok (if decide (length t ≤ 5) then "NEGATIVE" else "POSITIVE", 9 # 10);
     pd_to_datetime := mapM (λ s, if String.eqb s "2024-01-01" then Some 0%Z else None);
     csv_date := λ _, "2024-01-01";
     isoformat := λ _, "2024-01-01T00:00:00" |}.

(** An environment whose first pipeline is out of order. *)
Definition offline_externals : Externals :=
  {| sentiment_analyzer := λ _, Raise RuntimeError;
     emotion_analyzer := λ _, Ok ("POSITIVE", 9 # 10);
     pd_to_datetime := mapM (λ s, if String.eqb s "2024-01-01" then Some 0%Z else None);
     csv_date := λ _, "2024-01-01";
     isoformat := λ _, "2024-01-01T00:00:00" |}.

(** Two texts of 513 characters that differ in the last one only. *)
Definition long_text (last : N) : list N := replicate 512 104%N ++ [last].

(** ** Definitions in the words of the specification *)

(** The specification's negative percentage of a window:
    100 × (count of NEGATIVE in window) / (window size). *)
Definition spec_negative_percentage (window : list MoodRecord) : Q :=
  (100 * Qnat (count_mood "NEGATIVE" window) / Qnat (length window))%Q.

(** [n] is an integer nearest to [p]: either neighbour when [p] lies
    half-way between two integers. *)
Definition nearest_integer (p : Q) (n : Z) : Prop :=
  (inject_Z n - p <= 1 # 2)%Q ∧ (p - inject_Z n <= 1 # 2)%Q.

(** The message of a triggered alert reports the percentage [p] as a whole
    number. *)
Definition reports_percentage (p : Q) (msg : string) : Prop :=
  ∃ n : Z, nearest_integer p n ∧ msg = pretty n +:+ "% negative days detected.".

(** The trailing 14-day window: records with timestamp ≥ now − 14 days. *)
Definition spec_window (df : list MoodRecord) (now : Z) : list MoodRecord :=
  filter (λ r, (now - 14 * 86400000000 ≤ date r)%Z) df.

(** The specification's partition of the log for the trend: "recent" is
    the last 7 records, "past" all records before those. *)
Definition spec_recent (df : list MoodRecord) : list MoodRecord :=
  reverse (take 7 (reverse df)).

Definition spec_past (df : list MoodRecord) : list MoodRecord :=
  reverse (drop 7 (reverse df)).

(** The POSITIVE fraction of a partition, 0 when the partition is empty. *)
Definition spec_positive_fraction (part : list MoodRecord) : Q :=
  match part with
  | [] => 0%Q
  | _ => (Qnat (count_mood "POSITIVE" part) / Qnat (length part))%Q
  end.

(** Append atomicity as the specification words it: when persisting
    fails during an append, the operation reports failure and both the
    in-memory log and the durable file are at their pre-append content. *)
Definition spec_append_atomic `{!Externals} (text : list N) (rnd : nat) (today : Z)
    (e : exn) (left_behind : option (list csv_row)) (self : engine) : Prop :=
  let out := log_mood text rnd today (WriteFails e left_behind) self in
  (∃ e', out.1 = Raise e') ∧
  self_df out.2 = self_df self ∧
  durable out.2 = durable self.

(** The text of a triggered alert, as [check_alert] builds it from the
    window. *)
Definition detected (window : list MoodRecord) : string :=
  format_0f (Qnat (count_mood "NEGATIVE" window) / Qnat (length window) * 100)
            (percentage_b64 (count_mood "NEGATIVE" window) (length window))
  +:+ "% negative days detected.".

(** * Properties *)

(** ** Arithmetic helpers *)

Lemma Qlt_bool_iff (a b : Q) : Qlt_bool a b = true ↔ (a < b)%Q.
Proof.
  unfold Qlt_bool. rewrite negb_true_iff.
  destruct (Qle_bool b a) eqn:E.
  - apply Qle_bool_iff in E. split; [discriminate|]. intros H.
    exfalso. apply (Qlt_not_le _ _ H E).
  - split; [|reflexivity]. intros _. apply Qnot_le_lt. intros H.
    apply Qle_bool_iff in H. congruence.
Qed.

Lemma Qle_bool_false_iff (a b : Q) : Qle_bool a b = false ↔ (b < a)%Q.
Proof.
  rewrite <- Qlt_bool_iff. unfold Qlt_bool.
  destruct (Qle_bool a b); simpl; intuition congruence.
Qed.

Lemma round_half_even_near (q : Q) :
  (inject_Z (round_half_even q) - q <= 1 # 2)%Q ∧ (q - inject_Z (round_half_even q) <= 1 # 2)%Q.
Proof.
  unfold round_half_even.
  pose proof (Qfloor_le q) as Hlo. pose proof (Qlt_floor q) as Hhi.
  rewrite inject_Z_plus in Hhi. change (inject_Z 1) with 1%Q in Hhi.
  destruct (Qcompare_spec (q - inject_Z (Qfloor q)) (1 # 2)) as [E|E|E].
  - destruct (Z.even (Qfloor q)).
    + split; lra.
    + rewrite inject_Z_plus. change (inject_Z 1) with 1%Q. split; lra.
  - split; lra.
  - rewrite inject_Z_plus. change (inject_Z 1) with 1%Q. split; lra.
Qed.

(** The number [format_0f] prints is an integer nearest to the exact
    value. *)
Lemma format_0f_near (exact : Q) (x : PrimFloat.float) :
  ∃ n : Z, format_0f exact x = pretty n ∧ nearest_integer exact n.
Proof.
  unfold format_0f, nearest_integer.
  destruct (Qle_bool _ (1 # 2) && Qle_bool _ (1 # 2)) eqn:G.
  - apply andb_true_iff in G as [G1 G2]. apply Qle_bool_iff in G1, G2.
    by eexists.
  - eexists. split; [reflexivity|]. apply round_half_even_near.
Qed.



(** A quotient of counts against an integer bound, without division. *)
Lemma pct_le_iff (k a n : nat) :
  0 < n → (Qnat k <= 100 * Qnat a / Qnat n)%Q ↔ k * n ≤ 100 * a.
Proof.
  intros Hn. unfold Qnat, Qle, Qdiv, Qmult, Qinv. simpl.
  destruct (Z.of_nat n) eqn:E; try lia. simpl.
  rewrite Z.mul_1_r. rewrite Pos2Z.inj_mul. nia.
Qed.

(** ** Alert engine *)

Section Alert.
Implicit Types (df window : list MoodRecord) (now : Z).

Lemma since_14_days df now :
  since (now - timedelta_days 14) df = spec_window df now.
Proof. reflexivity. Qed.

Lemma since_length cutoff df : length (since cutoff df) ≤ length df.
Proof. apply length_filter. Qed.

(** The window guard subsumes the guard on the whole log. *)
Lemma window_enough df now : 7 ≤ length (spec_window df now) → 7 ≤ length df.
Proof.
  intros H. rewrite <- since_14_days in H.
  pose proof (since_length (now - timedelta_days 14) df). lia.
Qed.

(** The percentage the code computes, (count / size) * 100, is the
    specification's 100 * count / size. *)
Lemma code_percentage window :
  (Qnat (count_mood "NEGATIVE" window) / Qnat (length window) * 100
   == spec_negative_percentage window)%Q.
Proof.
  unfold spec_negative_percentage, Qdiv.
  rewrite (Qmult_comm (_ * _) 100), Qmult_assoc. reflexivity.
Qed.

Lemma detected_reports window :
  reports_percentage (spec_negative_percentage window) (detected window).
Proof.
  unfold detected.
  destruct (format_0f_near
              (Qnat (count_mood "NEGATIVE" window) / Qnat (length window) * 100)
              (percentage_b64 (count_mood "NEGATIVE" window) (length window)))
    as (n & -> & [H1 H2]).
  exists n. split; [|done].
  pose proof (code_percentage window) as E. unfold nearest_integer.
  rewrite <- E. by split.
Qed.

(** Past both guards, [check_alert] is the cascade of comparisons on the
    specification's percentage. *)
Lemma check_alert_cascade df now :
  7 ≤ length df →
  7 ≤ length (spec_window df now) →
  check_alert df now =
    let p := spec_negative_percentage (spec_window df now) in
    if Qle_bool 70 p then (true, "CRITICAL", detected (spec_window df now))
    else if Qle_bool 50 p then (true, "HIGH", detected (spec_window df now))
    else if Qle_bool 30 p then (true, "MEDIUM", detected (spec_window df now))
    else (false, "LOW", "Mood is stable.").
Proof.
  intros Hdf Hwin. unfold check_alert.
  rewrite since_14_days.
  rewrite decide_False by lia. rewrite decide_False by lia.
  cbv zeta.
  pose proof (code_percentage (spec_window df now)) as E.
  rewrite !(Qleb_comp _ _ (Qeq_refl _) _ _ E).
  reflexivity.
Qed.
(** The CRITICAL tier in terms of the two counts alone. *)
Lemma critical_by_counts df now :
  7 ≤ length df →
  7 ≤ length (spec_window df now) →
  (check_alert df now).1.2 = "CRITICAL"
  ↔ 70 * length (spec_window df now) ≤ 100 * count_mood "NEGATIVE" (spec_window df now).
Proof.
  intros Hdf Hwin. rewrite (check_alert_cascade df now Hdf Hwin). cbv zeta.
  rewrite <- (pct_le_iff 70 _ (length (spec_window df now))) by lia.
  change (Qnat 70) with 70%Q. fold (spec_negative_percentage (spec_window df now)).
  rewrite <- Qle_bool_iff.
  destruct (Qle_bool 70 _); [done|].
  destruct (Qle_bool 50 _); [done|].
  destruct (Qle_bool 30 _); done.
Qed.
End Alert.

(** C1. With at least 7 records in the log and at least 7 in the trailing
    14-day window, [check_alert] tiers the negative percentage
    100 * (NEGATIVE in window) / (window size), first match from the top:
    >= 70 CRITICAL, >= 50 HIGH, >= 30 MEDIUM (all triggered, with a
    message that reports the percentage as a whole number), otherwise
    not triggered, LOW, with the stable-mood message. A window of 10
    records with 7, 5, 3, 2 NEGATIVE gives CRITICAL, HIGH, MEDIUM and
    (False, LOW). *)
Theorem check_alert_tiers (df : list MoodRecord) (now : Z) :
  7 ≤ length df →
  7 ≤ length (spec_window df now) →
  let window := spec_window df now in
  let p := spec_negative_percentage window in
  ((70 <= p)%Q →
     ∃ msg, check_alert df now = (true, "CRITICAL", msg) ∧ reports_percentage p msg) ∧
  ((50 <= p)%Q ∧ (p < 70)%Q →
     ∃ msg, check_alert df now = (true, "HIGH", msg) ∧ reports_percentage p msg) ∧
  ((30 <= p)%Q ∧ (p < 50)%Q →
     ∃ msg, check_alert df now = (true, "MEDIUM", msg) ∧ reports_percentage p msg) ∧
  ((p < 30)%Q → check_alert df now = (false, "LOW", "Mood is stable.")) ∧
  (length window = 10 →
     (count_mood "NEGATIVE" window = 7 →
        check_alert df now = (true, "CRITICAL", "70% negative days detected.")) ∧
     (count_mood "NEGATIVE" window = 5 →
        check_alert df now = (true, "HIGH", "50% negative days detected.")) ∧
     (count_mood "NEGATIVE" window = 3 →
        check_alert df now = (true, "MEDIUM", "30% negative days detected.")) ∧
     (count_mood "NEGATIVE" window = 2 →
        check_alert df now = (false, "LOW", "Mood is stable."))).
Proof.
  intros Hdf Hwin window p.
  pose proof (check_alert_cascade df now Hdf Hwin) as Hc. cbv zeta in Hc.
  fold window in Hc. fold p in Hc.
  pose proof (detected_reports window) as Hmsg. fold p in Hmsg.
  split; [|split; [|split; [|split]]].
  - intros H70. apply Qle_bool_iff in H70. rewrite Hc, H70. by eexists.
  - intros [H50 H70]. apply Qle_bool_iff in H50. apply Qle_bool_false_iff in H70.
    rewrite Hc, H70, H50. by eexists.
  - intros [H30 H50]. apply Qle_bool_iff in H30. apply Qle_bool_false_iff in H50.
    assert (H70 : Qle_bool 70 p = false).
    { apply Qle_bool_false_iff. apply Qle_bool_false_iff in H50.
      eapply Qlt_trans; [exact H50|]. reflexivity. }
    rewrite Hc, H70, H50, H30. by eexists.
  - intros H30.
    assert (H50 : (p < 50)%Q) by (eapply Qlt_trans; [exact H30|]; reflexivity).
    assert (H70 : (p < 70)%Q) by (eapply Qlt_trans; [exact H30|]; reflexivity).
    apply Qle_bool_false_iff in H30, H50, H70.
    by rewrite Hc, H70, H50, H30.
  - intros Hlen.
    assert (Hcase : ∀ k, count_mood "NEGATIVE" window = k →
              check_alert df now =
                if Qle_bool 70 (100 * Qnat k / Qnat 10) then
                  (true, "CRITICAL",
                   format_0f (Qnat k / Qnat 10 * 100) (percentage_b64 k 10)
                   +:+ "% negative days detected.")
                else if Qle_bool 50 (100 * Qnat k / Qnat 10) then
                  (true, "HIGH",
                   format_0f (Qnat k / Qnat 10 * 100) (percentage_b64 k 10)
                   +:+ "% negative days detected.")
                else if Qle_bool 30 (100 * Qnat k / Qnat 10) then
                  (true, "MEDIUM",
                   format_0f (Qnat k / Qnat 10 * 100) (percentage_b64 k 10)
                   +:+ "% negative days detected.")
                else (false, "LOW", "Mood is stable.")).
    { intros k Hk. rewrite Hc. unfold p, spec_negative_percentage, detected.
      by rewrite Hk, Hlen. }
    split; [|split; [|split]]; intros Hk; rewrite (Hcase _ Hk); vm_compute; reflexivity.
Qed.

Lemma check_alert_tiers_witness :
  7 ≤ length (sample_log 7) ∧
  7 ≤ length (spec_window (sample_log 7) (day 30)) ∧
  check_alert (sample_log 7) (day 30) = (true, "CRITICAL", "70% negative days detected.").
Proof.
  assert (H1 : 7 ≤ length (sample_log 7)) by (vm_compute; lia).
  assert (H2 : 7 ≤ length (spec_window (sample_log 7) (day 30))) by (vm_compute; lia).
  split; [exact H1|]. split; [exact H2|].
  destruct (check_alert_tiers (sample_log 7) (day 30) H1 H2) as (_ & _ & _ & _ & H).
  apply H; reflexivity.
Defined.

(** C5. Fewer than 7 records in the log: (False, LOW) with the
    insufficient-data message, whatever the labels. At least 7 records but
    fewer than 7 in the trailing 14-day window: (False, LOW) with the
    insufficient-window-data message. In both cases the answer is fixed
    before any percentage is looked at. *)
Theorem check_alert_insufficient (df : list MoodRecord) (now : Z) :
  (length df < 7 →
     check_alert df now = (false, "LOW", "Not enough data yet.")) ∧
  (7 ≤ length df → length (spec_window df now) < 7 →
     check_alert df now = (false, "LOW", "Not enough data for 2-week analysis.")).
Proof.
  split.
  - intros H. unfold check_alert. by rewrite decide_True.
  - intros H7 Hw. unfold check_alert. rewrite since_14_days.
    rewrite decide_False by lia. by rewrite decide_True.
Qed.

Lemma check_alert_insufficient_witness :
  (length (replicate 5 (row 29 "NEGATIVE")) < 7 ∧
   check_alert (replicate 5 (row 29 "NEGATIVE")) (day 30)
     = (false, "LOW", "Not enough data yet.")) ∧
  (7 ≤ length (replicate 8 (row 3 "NEGATIVE")) ∧
   length (spec_window (replicate 8 (row 3 "NEGATIVE")) (day 30)) < 7 ∧
   check_alert (replicate 8 (row 3 "NEGATIVE")) (day 30)
     = (false, "LOW", "Not enough data for 2-week analysis.")).
Proof.
  assert (H1 : length (replicate 5 (row 29 "NEGATIVE")) < 7) by (vm_compute; lia).
  assert (H2 : 7 ≤ length (replicate 8 (row 3 "NEGATIVE"))) by (vm_compute; lia).
  assert (H3 : length (spec_window (replicate 8 (row 3 "NEGATIVE")) (day 30)) < 7)
    by (vm_compute; lia).
  split.
  - split; [exact H1|].
    exact (proj1 (check_alert_insufficient _ (day 30)) H1).
  - split; [exact H2|]. split; [exact H3|].
    exact (proj2 (check_alert_insufficient _ (day 30)) H2 H3).
Defined.

(** ** Statistics engine *)

Section Stats.
Implicit Types (df : list MoodRecord).

Lemma tail_spec_recent df : tail 7 df = spec_recent df.
Proof.
  unfold tail, spec_recent. by rewrite take_reverse, reverse_involutive.
Qed.

Lemma iloc_spec_past df : iloc_upto_minus 7 df = spec_past df.
Proof.
  unfold iloc_upto_minus, spec_past. by rewrite drop_reverse, reverse_involutive.
Qed.

Lemma spec_partition df :
  spec_past df ++ spec_recent df = df ∧ length (spec_recent df) = length df `min` 7.
Proof.
  rewrite <- tail_spec_recent, <- iloc_spec_past. unfold tail, iloc_upto_minus.
  split; [apply take_drop|]. rewrite length_drop. lia.
Qed.

Lemma stats_trend_lookup df :
  length df ≠ 0 → get_mood_stats df !! "trend" = Some (VStr (trend_of df)).
Proof.
  intros H. unfold get_mood_stats. rewrite decide_False by done. cbv zeta.
  do 5 (rewrite lookup_insert_ne by done). by rewrite lookup_insert_eq.
Qed.

(** For two records or more, [trend_of] compares the specification's
    fractions of the specification's partitions. *)
Lemma trend_of_cascade df :
  2 ≤ length df →
  trend_of df =
    let rf := spec_positive_fraction (spec_recent df) in
    let pf := spec_positive_fraction (spec_past df) in
    if Qlt_bool pf rf then "Improving 📈"
    else if Qlt_bool rf pf then "Declining 📉"
    else "Stable ➡️".
Proof.
  intros H. unfold trend_of. rewrite decide_True by done. cbv zeta.
  rewrite tail_spec_recent, iloc_spec_past.
  assert (Hr : spec_positive_fraction (spec_recent df)
               = (Qnat (count_mood "POSITIVE" (spec_recent df))
                  / Qnat (length (spec_recent df)))%Q).
  { destruct (spec_recent df) eqn:E; [|done].
    pose proof (proj2 (spec_partition df)) as L. rewrite E in L. simpl in L. lia. }
  assert (Hp : spec_positive_fraction (spec_past df)
               = if decide (0 < length (spec_past df))
                 then (Qnat (count_mood "POSITIVE" (spec_past df))
                       / Qnat (length (spec_past df)))%Q
                 else 0%Q).
  { destruct (spec_past df) eqn:E; [reflexivity|].
    by rewrite decide_True by (simpl; lia). }
  by rewrite Hr, Hp.
Qed.
End Stats.

(** C3. On the empty log [get_mood_stats] returns total_entries,
    positive_days, negative_days and neutral_days all 0 and the trend
    "No data", but the dictionary has no positive_percentage entry:
    reading it, as the dashboard does, raises KeyError. *)
Theorem get_mood_stats_empty :
  get_mood_stats [] !! "total_entries" = Some (VInt 0) ∧
  get_mood_stats [] !! "positive_days" = Some (VInt 0) ∧
  get_mood_stats [] !! "negative_days" = Some (VInt 0) ∧
  get_mood_stats [] !! "neutral_days" = Some (VInt 0) ∧
  get_mood_stats [] !! "trend" = Some (VStr "No data") ∧
  get_mood_stats [] !! "positive_percentage" = None ∧
  getitem (get_mood_stats []) "positive_percentage" = Raise (KeyError "positive_percentage").
Proof. repeat split; vm_compute; reflexivity. Qed.

(** C4. With at least 2 records the trend compares the POSITIVE fraction
    of the last 7 records with that of all the records before them (0 when
    there are none): greater gives IMPROVING, smaller DECLINING, equal
    STABLE. With exactly one record the trend is the insufficient-data
    sentinel. *)
Theorem get_mood_stats_trend (df : list MoodRecord) :
  (2 ≤ length df →
     let recent_fraction := spec_positive_fraction (spec_recent df) in
     let past_fraction := spec_positive_fraction (spec_past df) in
     ((recent_fraction > past_fraction)%Q →
        get_mood_stats df !! "trend" = Some (VStr "Improving 📈")) ∧
     ((recent_fraction < past_fraction)%Q →
        get_mood_stats df !! "trend" = Some (VStr "Declining 📉")) ∧
     ((recent_fraction == past_fraction)%Q →
        get_mood_stats df !! "trend" = Some (VStr "Stable ➡️"))) ∧
  (length df = 1 →
     get_mood_stats df !! "trend" = Some (VStr "Not enough data")).
Proof.
  split.
  - intros H rf pf.
    rewrite stats_trend_lookup by lia.
    rewrite (trend_of_cascade df H). cbv zeta. fold rf pf.
    repeat split.
    + intros Hgt. apply Qlt_bool_iff in Hgt. by rewrite Hgt.
    + intros Hlt.
      assert (Hn : Qlt_bool pf rf = false).
      { destruct (Qlt_bool pf rf) eqn:E; [|done].
        apply Qlt_bool_iff in E. exfalso.
        apply (Qlt_irrefl rf). by eapply Qlt_trans. }
      apply Qlt_bool_iff in Hlt. by rewrite Hn, Hlt.
    + intros Heq.
      assert (Hn : Qlt_bool pf rf = false).
      { destruct (Qlt_bool pf rf) eqn:E; [|done].
        apply Qlt_bool_iff in E. rewrite Heq in E. by apply Qlt_irrefl in E. }
      assert (Hm : Qlt_bool rf pf = false).
      { destruct (Qlt_bool rf pf) eqn:E; [|done].
        apply Qlt_bool_iff in E. rewrite Heq in E. by apply Qlt_irrefl in E. }
      by rewrite Hn, Hm.
  - intros H. rewrite stats_trend_lookup by lia.
    unfold trend_of. by rewrite decide_False by lia.
Qed.

Lemma get_mood_stats_trend_witness :
  2 ≤ length (sample_log 3) ∧
  (spec_positive_fraction (spec_recent (sample_log 3))
   > spec_positive_fraction (spec_past (sample_log 3)))%Q ∧
  get_mood_stats (sample_log 3) !! "trend" = Some (VStr "Improving 📈") ∧
  length [row 1 "POSITIVE"] = 1 ∧
  get_mood_stats [row 1 "POSITIVE"] !! "trend" = Some (VStr "Not enough data").
Proof.
  assert (H1 : 2 ≤ length (sample_log 3)) by (vm_compute; lia).
  assert (H2 : (spec_positive_fraction (spec_recent (sample_log 3))
                > spec_positive_fraction (spec_past (sample_log 3)))%Q)
    by (vm_compute; reflexivity).
  assert (H3 : length [row 1 "POSITIVE"] = 1) by reflexivity.
  split; [exact H1|]. split; [exact H2|]. split.
  - exact (proj1 (proj1 (get_mood_stats_trend (sample_log 3)) H1) H2).
  - split; [exact H3|].
    exact (proj2 (get_mood_stats_trend [row 1 "POSITIVE"]) H3).
Defined.

(** ** Report synthesizer *)

Lemma Qlt_bool_inject_Z (n k : Z) : Qlt_bool (inject_Z n) (inject_Z k) = true ↔ (n < k)%Z.
Proof. rewrite Qlt_bool_iff. unfold Qlt. simpl. lia. Qed.

(** C9. The recommendation, first match wins: fewer than 7 entries gives
    the keep-logging prompt; otherwise a positive percentage of at least 70
    gives the congratulatory template, of at most 30 the professional-help
    template, anything between the balanced template. With 10 entries,
    75, 20 and 50 percent give the congratulatory, professional-help and
    balanced templates. *)
Theorem recommendation_rule (stats : gmap string pyval) (n : Z) :
  stats !! "total_entries" = Some (VInt n) →
  ((n < 7)%Z →
     _get_recommendation stats
       = Ok "Keep logging your mood daily to get personalized insights!") ∧
  (∀ (pv : pyval) (p : Q),
     (7 ≤ n)%Z →
     stats !! "positive_percentage" = Some pv →
     as_number pv = Ok p →
     ((70 <= p)%Q →
        _get_recommendation stats
          = Ok "Great work! Maintain your current positive momentum! 🎉") ∧
     ((p <= 30)%Q →
        _get_recommendation stats
          = Ok "Consider reaching out to a mental health professional. Your wellbeing matters! 💙") ∧
     ((30 < p)%Q → (p < 70)%Q →
        _get_recommendation stats
          = Ok "Your mood is balanced. Keep tracking and stay mindful!") ∧
     (n = 10%Z →
        ((p == 75)%Q →
           _get_recommendation stats
             = Ok "Great work! Maintain your current positive momentum! 🎉") ∧
        ((p == 20)%Q →
           _get_recommendation stats
             = Ok "Consider reaching out to a mental health professional. Your wellbeing matters! 💙") ∧
        ((p == 50)%Q →
           _get_recommendation stats
             = Ok "Your mood is balanced. Keep tracking and stay mindful!"))).
Proof.
  intros Ht. split.
  - intros Hn. unfold _get_recommendation, getitem. rewrite Ht. simpl.
    apply (Qlt_bool_inject_Z n 7) in Hn. change (inject_Z 7) with 7%Q in Hn.
    by rewrite Hn.
  - intros pv p Hn Hp Hnum.
    assert (Hge : Qlt_bool (inject_Z n) 7 = false).
    { destruct (Qlt_bool (inject_Z n) 7) eqn:E; [|done].
      apply (Qlt_bool_inject_Z n 7) in E. lia. }
    assert (Hrec : _get_recommendation stats =
              if Qle_bool 70 p then
                Ok "Great work! Maintain your current positive momentum! 🎉"
              else if Qle_bool p 30 then
                Ok "Consider reaching out to a mental health professional. Your wellbeing matters! 💙"
              else Ok "Your mood is balanced. Keep tracking and stay mindful!").
    { unfold _get_recommendation, getitem. rewrite Ht, Hp.
      cbv [mbind result_bind]. rewrite Hnum.
      change (as_number (VInt n)) with (Ok (inject_Z n)).
      cbv beta iota. by rewrite Hge. }
    assert (Hhigh : (70 <= p)%Q → Qle_bool 70 p = true) by (by intros ?%Qle_bool_iff).
    assert (Hlow : (p <= 30)%Q → Qle_bool 70 p = false ∧ Qle_bool p 30 = true).
    { intros H. split; [|by apply Qle_bool_iff].
      apply Qle_bool_false_iff. eapply Qle_lt_trans; [exact H|reflexivity]. }
    assert (Hmid : (30 < p)%Q → (p < 70)%Q → Qle_bool 70 p = false ∧ Qle_bool p 30 = false).
    { intros H1 H2. split; by apply Qle_bool_false_iff. }
    rewrite Hrec. repeat split.
    + intros H. by rewrite (Hhigh H).
    + intros H. destruct (Hlow H) as [-> ->]. done.
    + intros H1 H2. destruct (Hmid H1 H2) as [-> ->]. done.
    + intros E. rewrite Hhigh; [done|]. rewrite E. discriminate.
    + intros E. destruct Hlow as [-> ->]; [|done]. rewrite E. discriminate.
    + intros E. destruct Hmid as [-> ->]; [| |done]; rewrite E; reflexivity.
Qed.

Lemma recommendation_rule_witness :
  let stats : gmap string pyval :=
    <["total_entries" := VInt 10]> (<["positive_percentage" := VFloat 75]> ∅) in
  stats !! "total_entries" = Some (VInt 10) ∧
  (7 ≤ 10)%Z ∧
  stats !! "positive_percentage" = Some (VFloat 75) ∧
  as_number (VFloat 75) = Ok 75%Q ∧
  (70 <= 75)%Q ∧
  _get_recommendation stats
    = Ok "Great work! Maintain your current positive momentum! 🎉".
Proof.
  intros stats.
  assert (H1 : stats !! "total_entries" = Some (VInt 10)) by (vm_compute; reflexivity).
  assert (H2 : (7 ≤ 10)%Z) by lia.
  assert (H3 : stats !! "positive_percentage" = Some (VFloat 75)) by (vm_compute; reflexivity).
  assert (H4 : as_number (VFloat 75) = Ok 75%Q) by reflexivity.
  assert (H5 : (70 <= 75)%Q) by (vm_compute; discriminate).
  repeat (split; [assumption|]).
  exact (proj1 (proj2 (recommendation_rule stats 10 H1) (VFloat 75) 75%Q H2 H3 H4) H5).
Defined.

(** ** Text helpers *)

Lemma lstrip_nil_iff (s : list N) : lstrip s = [] ↔ Forall (λ c, isspace c = true) s.
Proof.
  induction s as [|c s IH]; simpl.
  - split; [constructor|done].
  - destruct (isspace c) eqn:E.
    + rewrite IH. split; [by constructor|by inversion 1].
    + split; [done|]. inversion 1; congruence.
Qed.

Lemma lstrip_Forall (s : list N) :
  Forall (λ c, isspace c = true) (lstrip s) → Forall (λ c, isspace c = true) s.
Proof.
  induction s as [|c s IH]; simpl; [done|].
  destruct (isspace c) eqn:E; [|done].
  intros H. constructor; auto.
Qed.

(** [not entry.strip()] holds exactly for the texts made of white space
    only (the empty text among them). *)
Lemma strip_nil_iff (s : list N) : strip s = [] ↔ Forall (λ c, isspace c = true) s.
Proof.
  unfold strip. split.
  - intros H. apply (f_equal reverse) in H. rewrite reverse_involutive in H.
    change (reverse []) with (@nil N) in H.
    apply lstrip_nil_iff in H. rewrite Forall_reverse in H.
    by apply lstrip_Forall.
  - intros H. apply lstrip_nil_iff in H. rewrite H. reflexivity.
Qed.

Lemma random_choice_ok (rnd : nat) (seq : list string) :
  seq ≠ [] → ∃ a, random_choice rnd seq = Ok a ∧ a ∈ seq.
Proof.
  intros Hne. unfold random_choice.
  assert (Hlt : rnd `mod` length seq < length seq).
  { apply Nat.mod_upper_bound. destruct seq; simpl; [done|lia]. }
  destruct (lookup_lt_is_Some_2 _ _ Hlt) as [a Ha].
  rewrite Ha. exists a. split; [done|]. by eapply list_elem_of_lookup_2.
Qed.

(** ** Mood log store *)

Section LogStore.
Context {ext : Externals}.
Implicit Types (text : list N) (self : engine) (w : write_outcome).

Lemma mood_of_cases label :
  mood_of label = "POSITIVE" ∨ mood_of label = "NEGATIVE" ∨ mood_of label = "NEUTRAL".
Proof.
  unfold mood_of. destruct (String.eqb label "POSITIVE"); [by left|].
  destruct (String.eqb label "NEGATIVE"); [right; by left|right; by right].
Qed.

Lemma advice_for_mood rnd label :
  ∃ a, random_choice rnd (default ["Stay mindful."] (advice_map !! mood_of label)) = Ok a.
Proof.
  destruct (random_choice_ok rnd (default ["Stay mindful."] (advice_map !! mood_of label)))
    as (a & Ha & _); [|by exists a].
  destruct (mood_of_cases label) as [-> | [-> | ->]]; vm_compute; discriminate.
Qed.

Lemma analyze_mood_blank text rnd :
  strip text = [] →
  analyze_mood text rnd = Ok (None, 0%Q, "Please enter your feelings to get started.").
Proof. intros H. unfold analyze_mood. by rewrite decide_True. Qed.

Lemma analyze_mood_classified text rnd sent label score :
  strip text ≠ [] →
  sentiment_analyzer (take 512 text) = Ok sent →
  emotion_analyzer (take 512 text) = Ok (label, score) →
  ∃ a, analyze_mood text rnd = Ok (Some (mood_of label), score, a).
Proof.
  intros Hne Hs He. unfold analyze_mood. rewrite decide_False by done.
  rewrite Hs, He. cbv [mbind result_bind]. cbv beta iota. simpl fst. simpl snd.
  destruct (advice_for_mood rnd label) as [a Ha]. rewrite Ha. by exists a.
Qed.

(** A classified entry is appended in memory before the file is
    written; the outcome of the write decides the result and the file. *)
Lemma log_mood_classified text rnd today w self sent label score :
  strip text ≠ [] →
  sentiment_analyzer (take 512 text) = Ok sent →
  emotion_analyzer (take 512 text) = Ok (label, score) →
  ∃ a,
    let r := {| date := today; entry := take 200 text; mood := mood_of label;
                confidence := score; advice := a; alert_level := "LOW" |} in
    log_mood text rnd today w self =
      match w with
      | WriteOk =>
          (Ok (Some (mood_of label), score, a),
           {| self_df := self_df self ++ [r];
              durable := Some (to_row <$> self_df self ++ [r]) |})
      | WriteFails e left_behind =>
          (Raise e, {| self_df := self_df self ++ [r]; durable := left_behind |})
      end.
Proof.
  intros Hne Hs He.
  destruct (analyze_mood_classified text rnd sent label score Hne Hs He) as [a Ha].
  exists a. unfold log_mood. rewrite Ha. destruct w; reflexivity.
Qed.

(** Whatever the entry and the environment, [log_mood] leaves the frame
    as it was or one row longer, the new row having alert level LOW. *)
Lemma log_mood_frame text rnd today w self :
  ∃ added, self_df (log_mood text rnd today w self).2 = self_df self ++ added
           ∧ length added ≤ 1
           ∧ Forall (λ r, alert_level r = "LOW") added.
Proof.
  unfold log_mood.
  destruct (analyze_mood text rnd) as [[[[m|] c] a]|e]; simpl.
  - exists [{| date := today; entry := take 200 text; mood := m;
                confidence := c; advice := a; alert_level := "LOW" |}].
    split; [by destruct w|]. split; [simpl; lia|]. by repeat constructor.
  - exists []. rewrite app_nil_r. split; [done|]. split; [simpl; lia|constructor].
  - exists []. rewrite app_nil_r. split; [done|]. split; [simpl; lia|constructor].
Qed.
End LogStore.

(** C7. For a text that is empty or white space only, [log_mood] returns
    the "please enter" result with no label, raises nothing, and leaves
    the in-memory log and the durable file as they were, whatever a write
    would have done. *)
Theorem log_mood_blank {ext : Externals} (text : list N) (rnd : nat) (today : Z)
    (w : write_outcome) (self : engine) :
  strip text = [] →
  log_mood text rnd today w self
    = (Ok (None, 0%Q, "Please enter your feelings to get started."), self).
Proof.
  intros H. unfold log_mood. by rewrite (analyze_mood_blank text rnd H).
Qed.

Lemma log_mood_blank_witness :
  strip [32; 9; 10]%N = [] ∧
  @log_mood sample_externals [32; 9; 10]%N 0 (day 30) (WriteFails OSError None) sample_engine
    = (Ok (None, 0%Q, "Please enter your feelings to get started."), sample_engine).
Proof.
  assert (H : strip [32; 9; 10]%N = []) by reflexivity.
  split; [exact H|].
  exact (@log_mood_blank sample_externals _ 0 (day 30) (WriteFails OSError None) sample_engine H).
Defined.

(** C6. For a text that is not blank, which the classifier labels with a
    score in [0,1], [log_mood] appends exactly one record: the log is the
    old log followed by it, its mood is POSITIVE, NEGATIVE or NEUTRAL, its
    confidence is in [0,1] and its entry is the first 200 characters of
    the text. *)
Theorem log_mood_appends {ext : Externals} (text : list N) (rnd : nat) (today : Z)
    (w : write_outcome) (self : engine) (sent : string * Q) (label : string) (score : Q) :
  strip text ≠ [] →
  sentiment_analyzer (take 512 text) = Ok sent →
  emotion_analyzer (take 512 text) = Ok (label, score) →
  (0 <= score)%Q ∧ (score <= 1)%Q →
  ∃ r : MoodRecord,
    self_df (log_mood text rnd today w self).2 = self_df self ++ [r] ∧
    length (self_df (log_mood text rnd today w self).2) = length (self_df self) + 1 ∧
    (mood r = "POSITIVE" ∨ mood r = "NEGATIVE" ∨ mood r = "NEUTRAL") ∧
    ((0 <= confidence r)%Q ∧ (confidence r <= 1)%Q) ∧
    entry r = take 200 text ∧
    length (entry r) ≤ 200 ∧
    (length text ≤ 200 → entry r = text).
Proof.
  intros Hne Hs He Hscore.
  destruct (log_mood_classified text rnd today w self sent label score Hne Hs He)
    as [a Ha]. cbv zeta in Ha.
  eexists. rewrite Ha.
  split; [by destruct w|].
  split; [destruct w; simpl; rewrite length_app; simpl; lia|].
  split; [apply mood_of_cases|].
  split; [exact Hscore|].
  split; [reflexivity|].
  split; [simpl; rewrite length_take; lia|].
  intros Hlen. simpl. by apply take_ge.
Qed.

Lemma log_mood_appends_witness :
  strip [104; 105]%N ≠ [] ∧
  ((0 <= 9 # 10)%Q ∧ (9 # 10 <= 1)%Q) ∧
  ∃ r : MoodRecord,
    self_df (@log_mood sample_externals [104; 105]%N 0 (day 30) WriteOk sample_engine).2
      = self_df sample_engine ++ [r] ∧
    (mood r = "POSITIVE" ∨ mood r = "NEGATIVE" ∨ mood r = "NEUTRAL") ∧
    ((0 <= confidence r)%Q ∧ (confidence r <= 1)%Q) ∧
    entry r = take 200 [104; 105]%N.
Proof.
  assert (H1 : strip [104; 105]%N ≠ []) by (vm_compute; discriminate).
  assert (H2 : (0 <= 9 # 10)%Q ∧ (9 # 10 <= 1)%Q) by (split; vm_compute; discriminate).
  split; [exact H1|]. split; [exact H2|].
  destruct (@log_mood_appends sample_externals [104; 105]%N 0 (day 30) WriteOk sample_engine
              ("POSITIVE", 9 # 10) "NEGATIVE" (9 # 10) H1 eq_refl eq_refl H2)
    as (r & Hdf & _ & Hmood & Hconf & Hentry & _).
  exists r. repeat split; assumption || apply Hconf.
Defined.

(** C2, the claim refuted: a write that fails and leaves the file as it
    was still leaves the new record in the in-memory log. *)
Lemma append_atomic_counterexample :
  ¬ @spec_append_atomic sample_externals [104; 105]%N 0 (day 30) OSError
      (durable sample_engine) sample_engine.
Proof.
  intros (_ & Hmem & _). vm_compute in Hmem. discriminate.
Qed.

(** C2, amended. When the write of the durable file fails during an
    append, the exception reaches the caller, the file is what the failed
    write left behind, and the in-memory log is not rolled back: it is the
    pre-append log followed by the new record. *)
Theorem log_mood_persist_failure {ext : Externals} (text : list N) (rnd : nat) (today : Z)
    (e : exn) (left_behind : option (list csv_row)) (self : engine)
    (sent : string * Q) (label : string) (score : Q) :
  strip text ≠ [] →
  sentiment_analyzer (take 512 text) = Ok sent →
  emotion_analyzer (take 512 text) = Ok (label, score) →
  ∃ a : string,
    log_mood text rnd today (WriteFails e left_behind) self =
      (Raise e,
       {| self_df := self_df self ++
            [{| date := today; entry := take 200 text; mood := mood_of label;
                confidence := score; advice := a; alert_level := "LOW" |}];
          durable := left_behind |}).
Proof.
  intros Hne Hs He.
  destruct (log_mood_classified text rnd today (WriteFails e left_behind) self
              sent label score Hne Hs He) as [a Ha].
  by exists a.
Qed.

Lemma log_mood_persist_failure_witness :
  strip [104; 105]%N ≠ [] ∧
  ∃ a : string,
    @log_mood sample_externals [104; 105]%N 0 (day 30)
      (WriteFails OSError (durable sample_engine)) sample_engine =
      (Raise OSError,
       {| self_df := self_df sample_engine ++
            [{| date := day 30; entry := take 200 [104; 105]%N; mood := mood_of "NEGATIVE";
                confidence := 9 # 10; advice := a; alert_level := "LOW" |}];
          durable := durable sample_engine |}).
Proof.
  assert (H1 : strip [104; 105]%N ≠ []) by (vm_compute; discriminate).
  split; [exact H1|].
  exact (@log_mood_persist_failure sample_externals [104; 105]%N 0 (day 30) OSError
           (durable sample_engine) sample_engine ("POSITIVE", 9 # 10) "NEGATIVE" (9 # 10)
           H1 eq_refl eq_refl).
Defined.

(** ** Loading *)

Lemma init_well_formed {ext : Externals} (rows : list csv_row) (dates : list Z) :
  pd_to_datetime (row_date <$> rows) = Some dates →
  init (Some rows) = Ok {| self_df := zip_with with_date rows dates; durable := Some rows |}.
Proof.
  intros Hm. unfold init, read_csv, to_datetime. cbv [mbind result_bind]. cbv beta iota.
  by rewrite Hm.
Qed.

(** C8. Loading a missing file gives the empty log and no error. Loading
    a file that exists and has a date that cannot be parsed raises: the
    error reaches the caller and is not replaced by an empty log. *)
Theorem init_missing_or_malformed {ext : Externals} :
  init None = Ok {| self_df := []; durable := None |} ∧
  (∀ rows : list csv_row,
     pd_to_datetime (row_date <$> rows) = None →
     init (Some rows) = Raise ValueError ∧
     init (Some rows) ≠ Ok {| self_df := []; durable := Some rows |}).
Proof.
  split; [reflexivity|].
  intros rows Hm.
  assert (Hr : init (Some rows) = Raise ValueError).
  { unfold init, read_csv, to_datetime. cbv [mbind result_bind]. cbv beta iota.
    by rewrite Hm. }
  split; [exact Hr|]. by rewrite Hr.
Qed.

Lemma init_missing_or_malformed_witness :
  @pd_to_datetime sample_externals (row_date <$> [bad_row]) = None ∧
  @init sample_externals (Some [bad_row]) = Raise ValueError ∧
  @init sample_externals None = Ok {| self_df := []; durable := None |}.
Proof.
  assert (H : @pd_to_datetime sample_externals (row_date <$> [bad_row]) = None)
    by reflexivity.
  split; [exact H|]. split.
  - exact (proj1 (proj2 (@init_missing_or_malformed sample_externals) [bad_row] H)).
  - exact (proj1 (@init_missing_or_malformed sample_externals)).
Defined.

(** ** Stored alert levels *)

Lemma perform_frame {ext : Externals} (c : call) (self : engine) :
  ∃ added, self_df (perform c self).2 = self_df self ++ added
           ∧ Forall (λ r, alert_level r = "LOW") added.
Proof.
  destruct c as [text rnd today w| | | |]; simpl;
    try (exists []; rewrite app_nil_r; split; [done|constructor]).
  destruct (log_mood_frame text rnd today w self) as (added & Hdf & _ & Hlow).
  exists added. destruct (log_mood text rnd today w self) as [res self']. by split.
Qed.

(** C10. Through any sequence of calls on the engine the records already
    stored stay as they are, alert level included, and every record added
    carries the alert level LOW, whatever [check_alert] would say of the
    log at that time. *)
Theorem stored_alert_level_low {ext : Externals} (cs : list call) (self : engine) :
  ∃ added : list MoodRecord,
    self_df (perform_all cs self) = self_df self ++ added ∧
    Forall (λ r, alert_level r = "LOW") added.
Proof.
  revert self. induction cs as [|c cs IH]; intros self.
  - exists []. rewrite app_nil_r. split; [done|constructor].
  - unfold perform_all. simpl. fold (perform_all cs (perform c self).2).
    destruct (perform_frame c self) as (added1 & H1 & L1).
    destruct (IH (perform c self).2) as (added2 & H2 & L2).
    exists (added1 ++ added2). split.
    + by rewrite H2, H1, app_assoc.
    + by apply Forall_app.
Qed.

(** A log in CRITICAL state: the record logged into it is stored LOW. *)
Example low_in_critical_log :
  let self := {| self_df := sample_log 7; durable := None |} in
  check_alert (self_df self) (day 30) = (true, "CRITICAL", "70% negative days detected.") ∧
  alert_level <$> drop 12 (self_df (@log_mood sample_externals [104; 105]%N 0 (day 30) WriteOk self).2)
    = ["LOW"].
Proof. split; vm_compute; reflexivity. Qed.

(** * Further properties of the engine *)

(** ** Rounding *)

(** Rounding to the nearest integer stays within integer bounds. *)
Lemma round_half_even_between (a b : Z) (q : Q) :
  (inject_Z a <= q)%Q → (q <= inject_Z b)%Q →
  (a ≤ round_half_even q)%Z ∧ (round_half_even q ≤ b)%Z.
Proof.
  intros Ha Hb. destruct (round_half_even_near q) as [H1 H2].
  split.
  - apply Z.lt_succ_r, Z.lt_pred_lt_succ. rewrite Zlt_Qlt.
    unfold Z.pred. rewrite inject_Z_plus. change (inject_Z (-1)) with (-1)%Q. lra.
  - apply Z.lt_succ_r. rewrite Zlt_Qlt.
    unfold Z.succ. rewrite inject_Z_plus. change (inject_Z 1) with 1%Q. lra.
Qed.

Lemma scale_pos (n : nat) : (0 < inject_Z (10 ^ Z.of_nat n))%Q.
Proof.
  change 0%Q with (inject_Z 0). rewrite <- Zlt_Qlt. apply Z.pow_pos_nonneg; lia.
Qed.

(** [round(q, n)] stays within integer bounds of [q]. *)
Lemma py_round_between (a b : Z) (q : Q) (n : nat) :
  (inject_Z a <= q)%Q → (q <= inject_Z b)%Q →
  (inject_Z a <= py_round q n)%Q ∧ (py_round q n <= inject_Z b)%Q.
Proof.
  intros Ha Hb. unfold py_round. rewrite Qred_correct.
  pose proof (scale_pos n) as Hs.
  set (s := (10 ^ Z.of_nat n)%Z) in *.
  destruct (round_half_even_between (a * s) (b * s) (q * inject_Z s)) as [H1 H2].
  - rewrite inject_Z_mult. apply Qmult_le_compat_r; lra.
  - rewrite inject_Z_mult. apply Qmult_le_compat_r; lra.
  - rewrite Zle_Qle, inject_Z_mult in H1. rewrite Zle_Qle, inject_Z_mult in H2.
    split.
    + by apply Qle_shift_div_l.
    + by apply Qle_shift_div_r.
Qed.


(** ** Statistics of a non-empty log *)

Lemma count_mood_cons (label : string) (r : MoodRecord) (df : list MoodRecord) :
  count_mood label (r :: df)
  = (if decide (mood r = label) then 1 else 0) + count_mood label df.
Proof.
  unfold count_mood. rewrite filter_cons. by destruct (decide (mood r = label)).
Qed.

Lemma count_mood_three (df : list MoodRecord) :
  count_mood "POSITIVE" df + count_mood "NEGATIVE" df + count_mood "NEUTRAL" df ≤ length df
  ∧ (Forall (λ r, mood r = "POSITIVE" ∨ mood r = "NEGATIVE" ∨ mood r = "NEUTRAL") df →
     count_mood "POSITIVE" df + count_mood "NEGATIVE" df + count_mood "NEUTRAL" df
     = length df).
Proof.
  induction df as [|r df [IH1 IH2]]; [split; [reflexivity|done]|].
  rewrite !count_mood_cons. simpl length.
  split.
  - repeat case_decide; try lia; congruence.
  - intros H. inversion H as [|? ? Hr Hdf]; subst. specialize (IH2 Hdf).
    repeat case_decide; try lia; try congruence.
    destruct Hr as [?|[?|?]]; congruence.
Qed.

Lemma Qnat_S (n : nat) : (Qnat (S n) == Qnat n + 1)%Q.
Proof.
  unfold Qnat. rewrite Nat2Z.inj_succ. unfold Z.succ. by rewrite inject_Z_plus.
Qed.

Lemma Qnat_nonneg (n : nat) : (0 <= Qnat n)%Q.
Proof. unfold Qnat. change 0%Q with (inject_Z 0). rewrite <- Zle_Qle. lia. Qed.

Lemma Qnat_positive (n : nat) : 0 < n → (0 < Qnat n)%Q.
Proof. intros H. unfold Qnat. change 0%Q with (inject_Z 0). rewrite <- Zlt_Qlt. lia. Qed.



(** What [get_mood_stats] stores under each key for a non-empty log. *)
Lemma stats_lookup_nonempty (df : list MoodRecord) :
  df ≠ [] →
  get_mood_stats df !! "total_entries" = Some (VInt (Z.of_nat (length df))) ∧
  get_mood_stats df !! "positive_days" = Some (VInt (Z.of_nat (count_mood "POSITIVE" df))) ∧
  get_mood_stats df !! "negative_days" = Some (VInt (Z.of_nat (count_mood "NEGATIVE" df))) ∧
  get_mood_stats df !! "neutral_days" = Some (VInt (Z.of_nat (count_mood "NEUTRAL" df))) ∧
  get_mood_stats df !! "positive_percentage"
    = Some (VFloat (round_percentage
                      (Qnat (count_mood "POSITIVE" df) / Qnat (length df) * 100)
                      (percentage_b64 (count_mood "POSITIVE" df) (length df)))) ∧
  get_mood_stats df !! "avg_confidence" = Some (VFloat (py_round (mean_confidence df) 3)).
Proof.
  intros Hne.
  assert (Hlen : 0 < length df) by (destruct df; simpl; [done|lia]).
  unfold get_mood_stats. rewrite decide_False by lia. cbv zeta.
  rewrite !decide_True by done.
  repeat split; repeat (rewrite lookup_insert_ne by done); by rewrite lookup_insert_eq.
Qed.

(** X4. The three day counts of [get_mood_stats] never add up to more than
    total_entries, and add up to exactly total_entries when every row
    carries one of the three labels. *)
Theorem stats_day_counts (df : list MoodRecord) :
  ∃ total positive negative neutral : nat,
    get_mood_stats df !! "total_entries" = Some (VInt (Z.of_nat total)) ∧
    get_mood_stats df !! "positive_days" = Some (VInt (Z.of_nat positive)) ∧
    get_mood_stats df !! "negative_days" = Some (VInt (Z.of_nat negative)) ∧
    get_mood_stats df !! "neutral_days" = Some (VInt (Z.of_nat neutral)) ∧
    total = length df ∧
    positive + negative + neutral ≤ total ∧
    (Forall (λ r, mood r = "POSITIVE" ∨ mood r = "NEGATIVE" ∨ mood r = "NEUTRAL") df →
     positive + negative + neutral = total).
Proof.
  destruct df as [|r df].
  - exists 0, 0, 0, 0.
    split; [reflexivity|]. split; [reflexivity|]. split; [reflexivity|].
    split; [reflexivity|]. split; [reflexivity|]. split; [simpl; lia|done].
  - destruct (stats_lookup_nonempty (r :: df)) as (Ht & Hp & Hn & Hu & _); [done|].
    destruct (count_mood_three (r :: df)) as [Hle Heq].
    eexists _, _, _, _.
    split; [exact Ht|]. split; [exact Hp|]. split; [exact Hn|].
    split; [exact Hu|]. split; [reflexivity|]. split; [exact Hle|exact Heq].
Qed.

Lemma stats_day_counts_witness :
  Forall (λ r, mood r = "POSITIVE" ∨ mood r = "NEGATIVE" ∨ mood r = "NEUTRAL") (sample_log 3) ∧
  ∃ total positive negative neutral : nat,
    get_mood_stats (sample_log 3) !! "total_entries" = Some (VInt (Z.of_nat total)) ∧
    total = 12 ∧ positive + negative + neutral = total.
Proof.
  assert (H : Forall (λ r, mood r = "POSITIVE" ∨ mood r = "NEGATIVE" ∨ mood r = "NEUTRAL")
                (sample_log 3)).
  { unfold sample_log. simpl.
    repeat first [apply Forall_nil_2 | apply Forall_cons_2; [simpl; auto|]]. }
  split; [exact H|].
  destruct (stats_day_counts (sample_log 3))
    as (total & positive & negative & neutral & Ht & _ & _ & _ & Hlen & _ & Hsum).
  exists total, positive, negative, neutral.
  split; [exact Ht|]. split; [by rewrite Hlen|]. exact (Hsum H).
Defined.



Lemma sum_confidence_bounds (df : list MoodRecord) :
  Forall (λ r, (0 <= confidence r)%Q ∧ (confidence r <= 1)%Q) df →
  (0 <= foldr Qplus 0 (confidence <$> df))%Q ∧
  (foldr Qplus 0 (confidence <$> df) <= Qnat (length df))%Q.
Proof.
  induction 1 as [|r df [H0 H1] _ [IH0 IH1]]; [split; simpl; [lra|apply Qnat_nonneg]|].
  simpl length. rewrite Qnat_S. rewrite fmap_cons. cbn [foldr]. split; lra.
Qed.

(** X6. When every stored confidence lies in [0,1], so does the
    avg_confidence of a non-empty log. *)
Theorem avg_confidence_range (df : list MoodRecord) :
  df ≠ [] →
  Forall (λ r, (0 <= confidence r)%Q ∧ (confidence r <= 1)%Q) df →
  ∃ c : Q,
    get_mood_stats df !! "avg_confidence" = Some (VFloat c) ∧ (0 <= c)%Q ∧ (c <= 1)%Q.
Proof.
  intros Hne Hall.
  destruct (stats_lookup_nonempty df Hne) as (_ & _ & _ & _ & _ & Hc).
  eexists. split; [exact Hc|].
  assert (Hlen : 0 < length df) by (destruct df; simpl; [done|lia]).
  pose proof (Qnat_positive _ Hlen) as Hpos.
  destruct (sum_confidence_bounds df Hall) as [S0 S1].
  destruct (py_round_between 0 1 (mean_confidence df) 3) as [B0 B1].
  - change (inject_Z 0) with 0%Q. unfold mean_confidence. apply Qle_shift_div_l; lra.
  - change (inject_Z 1) with 1%Q. unfold mean_confidence. apply Qle_shift_div_r; lra.
  - change (inject_Z 0) with 0%Q in B0. change (inject_Z 1) with 1%Q in B1. by split.
Qed.

Lemma avg_confidence_range_witness :
  sample_log 3 ≠ [] ∧
  Forall (λ r, (0 <= confidence r)%Q ∧ (confidence r <= 1)%Q) (sample_log 3) ∧
  ∃ c : Q, get_mood_stats (sample_log 3) !! "avg_confidence" = Some (VFloat c)
           ∧ (0 <= c)%Q ∧ (c <= 1)%Q.
Proof.
  assert (H1 : sample_log 3 ≠ []) by done.
  assert (H2 : Forall (λ r, (0 <= confidence r)%Q ∧ (confidence r <= 1)%Q) (sample_log 3)).
  { repeat constructor; simpl; vm_compute; discriminate. }
  split; [exact H1|]. split; [exact H2|].
  exact (avg_confidence_range (sample_log 3) H1 H2).
Defined.

(** ** More on the alert engine *)

Lemma since_idempotent (cutoff : Z) (df : list MoodRecord) :
  since cutoff (since cutoff df) = since cutoff df.
Proof.
  unfold since. induction df as [|r df IH]; [done|].
  rewrite filter_cons. destruct (decide (cutoff ≤ date r)%Z) as [Hr|Hr]; [|exact IH].
  rewrite filter_cons, decide_True by done. by rewrite IH.
Qed.

Lemma pct_bool_iff (k a n : nat) :
  0 < n → Qle_bool (Qnat k) (100 * Qnat a / Qnat n) = true ↔ k * n ≤ 100 * a.
Proof. intros Hn. rewrite Qle_bool_iff. by apply pct_le_iff. Qed.

(** The answers of [check_alert], by the size of the window and the
    number of NEGATIVE records in it. *)
Lemma check_alert_cases (df : list MoodRecord) (now : Z) :
  let size := length (spec_window df now) in
  let negative := count_mood "NEGATIVE" (spec_window df now) in
  (size < 7 ∧ ∃ msg, check_alert df now = (false, "LOW", msg)) ∨
  (7 ≤ size ∧ 70 * size ≤ 100 * negative ∧
     ∃ msg, check_alert df now = (true, "CRITICAL", msg)) ∨
  (7 ≤ size ∧ 50 * size ≤ 100 * negative ∧ 100 * negative < 70 * size ∧
     ∃ msg, check_alert df now = (true, "HIGH", msg)) ∨
  (7 ≤ size ∧ 30 * size ≤ 100 * negative ∧ 100 * negative < 50 * size ∧
     ∃ msg, check_alert df now = (true, "MEDIUM", msg)) ∨
  (7 ≤ size ∧ 100 * negative < 30 * size ∧
     check_alert df now = (false, "LOW", "Mood is stable.")).
Proof.
  intros size negative.
  destruct (decide (length df < 7)) as [Hdf|Hdf].
  { left. split.
    - pose proof (since_length (now - timedelta_days 14) df) as Hle.
      rewrite since_14_days in Hle. unfold size. lia.
    - eexists. unfold check_alert. by rewrite decide_True. }
  destruct (decide (size < 7)) as [Hw|Hw].
  { left. split; [done|]. eexists. unfold check_alert.
    rewrite since_14_days, decide_False by done. by rewrite decide_True. }
  right. rewrite check_alert_cascade by lia. cbv zeta.
  pose proof (pct_bool_iff 70 negative size ltac:(lia)) as H70.
  pose proof (pct_bool_iff 50 negative size ltac:(lia)) as H50.
  pose proof (pct_bool_iff 30 negative size ltac:(lia)) as H30.
  change (Qnat 70) with 70%Q in H70. change (Qnat 50) with 50%Q in H50.
  change (Qnat 30) with 30%Q in H30.
  fold (spec_negative_percentage (spec_window df now)) in H70, H50, H30.
  destruct (Qle_bool 70 _); [|destruct (Qle_bool 50 _); [|destruct (Qle_bool 30 _)]].
  - left. split; [lia|]. split; [by apply H70|]. by eexists.
  - right; left. split; [lia|]. split; [by apply H50|].
    split; [|by eexists]. destruct (decide (70 * size ≤ 100 * negative)) as [H|H]; [|lia].
    by apply H70 in H.
  - right; right; left. split; [lia|]. split; [by apply H30|].
    split; [|by eexists]. destruct (decide (50 * size ≤ 100 * negative)) as [H|H]; [|lia].
    by apply H50 in H.
  - right; right; right. split; [lia|]. split; [|done].
    destruct (decide (30 * size ≤ 100 * negative)) as [H|H]; [|lia].
    by apply H30 in H.
Qed.

(** X7. [check_alert] triggers exactly when the trailing 14-day window
    holds at least 7 records of which at least 30% are NEGATIVE; the
    severity is then MEDIUM, HIGH or CRITICAL, and LOW exactly when it does
    not trigger. *)
Theorem check_alert_triggered_iff (df : list MoodRecord) (now : Z) :
  ∃ (triggered : bool) (severity message : string),
    check_alert df now = (triggered, severity, message) ∧
    (triggered = true ↔
       7 ≤ length (spec_window df now) ∧
       30 * length (spec_window df now) ≤ 100 * count_mood "NEGATIVE" (spec_window df now)) ∧
    (triggered = true → severity = "MEDIUM" ∨ severity = "HIGH" ∨ severity = "CRITICAL") ∧
    (triggered = false ↔ severity = "LOW").
Proof.
  destruct (check_alert_cases df now)
    as [(Hs & msg & ->) | [(Hs & Hn & msg & ->) | [(Hs & Hn & _ & msg & ->)
        | [(Hs & Hn & _ & msg & ->) | (Hs & Hn & ->)]]]];
    eexists _, _, _; (split; [reflexivity|]).
  - split; [split; [done|intros [? ?]; lia]|]. split; [done|by split].
  - split; [split; [intros _; split; lia|done]|]. split; [auto|by split].
  - split; [split; [intros _; split; lia|done]|]. split; [auto|by split].
  - split; [split; [intros _; split; lia|done]|]. split; [auto|by split].
  - split; [split; [done|intros [? ?]; lia]|]. split; [done|by split].
Qed.

Lemma check_alert_triggered_iff_witness :
  ∃ (triggered : bool) (severity message : string),
    check_alert (sample_log 3) (day 30) = (triggered, severity, message) ∧
    triggered = true ∧ severity = "MEDIUM".
Proof.
  destruct (check_alert_triggered_iff (sample_log 3) (day 30))
    as (t & sev & msg & Hc & Ht & _ & _).
  exists t, sev, msg. split; [exact Hc|].
  vm_compute in Hc. by inversion Hc.
Defined.

(** X8. Rows older than the window do not influence the alert: once the
    window holds 7 records, [check_alert] on the log is [check_alert] on
    the window alone. *)
Theorem check_alert_window_only (df : list MoodRecord) (now : Z) :
  7 ≤ length (spec_window df now) →
  check_alert df now = check_alert (spec_window df now) now.
Proof.
  intros Hw.
  assert (Hi : spec_window (spec_window df now) now = spec_window df now)
    by apply (since_idempotent (now - timedelta_days 14) df).
  rewrite (check_alert_cascade df now (window_enough df now Hw) Hw).
  rewrite (check_alert_cascade (spec_window df now) now) by (rewrite ?Hi; done).
  by rewrite Hi.
Qed.

Lemma check_alert_window_only_witness :
  7 ≤ length (spec_window (sample_log 5) (day 30)) ∧
  check_alert (sample_log 5) (day 30) = check_alert (spec_window (sample_log 5) (day 30)) (day 30).
Proof.
  assert (H : 7 ≤ length (spec_window (sample_log 5) (day 30))) by (vm_compute; lia).
  split; [exact H|]. exact (check_alert_window_only (sample_log 5) (day 30) H).
Defined.



(** ** Trend of a short log *)

(** X11. For a log of 2 to 7 records there are no "past" records, so the
    trend is IMPROVING as soon as one record is POSITIVE and STABLE
    otherwise; it is never DECLINING. *)
Theorem trend_short_log (df : list MoodRecord) :
  2 ≤ length df → length df ≤ 7 →
  get_mood_stats df !! "trend"
  = Some (VStr (if decide (0 < count_mood "POSITIVE" df)
                then "Improving 📈" else "Stable ➡️")).
Proof.
  intros H2 H7. rewrite stats_trend_lookup by lia.
  unfold trend_of. rewrite decide_True by done. cbv zeta.
  unfold tail, iloc_upto_minus.
  replace (length df - 7) with 0 by lia. rewrite drop_0, take_0.
  rewrite decide_False by (simpl; lia).
  pose proof (Qnat_positive (length df) ltac:(lia)) as Hn.
  destruct (decide (0 < count_mood "POSITIVE" df)) as [Hc|Hc].
  - assert (Hlt : Qlt_bool 0 (Qnat (count_mood "POSITIVE" df) / Qnat (length df)) = true).
    { apply Qlt_bool_iff. apply Qlt_shift_div_l; [done|].
      pose proof (Qnat_positive _ Hc). lra. }
    by rewrite Hlt.
  - replace (count_mood "POSITIVE" df) with 0 by lia.
    assert (E : (Qnat 0 / Qnat (length df) == 0)%Q) by (change (Qnat 0) with 0%Q; field; lra).
    assert (H1 : Qlt_bool 0 (Qnat 0 / Qnat (length df)) = false).
    { destruct (Qlt_bool 0 _) eqn:B; [|done]. apply Qlt_bool_iff in B.
      rewrite E in B. by apply Qlt_irrefl in B. }
    assert (H3 : Qlt_bool (Qnat 0 / Qnat (length df)) 0 = false).
    { destruct (Qlt_bool _ 0) eqn:B; [|done]. apply Qlt_bool_iff in B.
      rewrite E in B. by apply Qlt_irrefl in B. }
    by rewrite H1, H3.
Qed.

Lemma trend_short_log_witness :
  2 ≤ length (replicate 3 (row 29 "NEGATIVE")) ∧
  length (replicate 3 (row 29 "NEGATIVE")) ≤ 7 ∧
  get_mood_stats (replicate 3 (row 29 "NEGATIVE")) !! "trend" = Some (VStr "Stable ➡️").
Proof.
  assert (H1 : 2 ≤ length (replicate 3 (row 29 "NEGATIVE"))) by (vm_compute; lia).
  assert (H2 : length (replicate 3 (row 29 "NEGATIVE")) ≤ 7) by (vm_compute; lia).
  split; [exact H1|]. split; [exact H2|].
  exact (trend_short_log (replicate 3 (row 29 "NEGATIVE")) H1 H2).
Defined.

(** ** History *)

Section History.
Variable before : nat → nat → bool.

Lemma insert_by_date_perm (r : nat * MoodRecord) (l : list (nat * MoodRecord)) :
  insert_by_date before r l ≡ₚ r :: l.
Proof.
  induction l as [|x l IH]; simpl; [done|].
  destruct (decide (date r.2 < date x.2)%Z); [done|].
  destruct (decide (date r.2 = date x.2)); [destruct (before r.1 x.1); [done|]|];
    rewrite IH; apply Permutation_swap.
Qed.

Lemma insert_by_date_sorted (r : nat * MoodRecord) (l : list (nat * MoodRecord)) :
  StronglySorted (λ a b, (date a.2 ≤ date b.2)%Z) l →
  StronglySorted (λ a b, (date a.2 ≤ date b.2)%Z) (insert_by_date before r l).
Proof.
  induction 1 as [|x l Hs IH Hx]; simpl.
  - repeat constructor.
  - assert (Hhere : (date r.2 ≤ date x.2)%Z →
              StronglySorted (λ a b, (date a.2 ≤ date b.2)%Z) (r :: x :: l)).
    { intros Hle. constructor; [by constructor|].
      constructor; [done|]. eapply Forall_impl; [exact Hx|]. simpl. intros; lia. }
    assert (Hlater : (date x.2 ≤ date r.2)%Z →
              StronglySorted (λ a b, (date a.2 ≤ date b.2)%Z)
                (x :: insert_by_date before r l)).
    { intros Hle. constructor; [done|].
      rewrite insert_by_date_perm. by constructor. }
    destruct (decide (date r.2 < date x.2)%Z); [apply Hhere; lia|].
    destruct (decide (date r.2 = date x.2)); [|apply Hlater; lia].
    destruct (before r.1 x.1); [apply Hhere; lia|apply Hlater; lia].
Qed.

Lemma numbered_rows (g : nat → nat) (l : list MoodRecord) :
  (imap (λ i r, (g i, r)) l).*2 = l.
Proof.
  revert g. induction l as [|x l IH]; intros g; [done|].
  rewrite imap_cons, fmap_cons. simpl. f_equal. apply (IH (g ∘ S)).
Qed.

Lemma sort_values_date_perm (frame : list MoodRecord) :
  sort_values_date before frame ≡ₚ frame.
Proof.
  unfold sort_values_date.
  assert (H : ∀ l : list (nat * MoodRecord), foldr (insert_by_date before) [] l ≡ₚ l).
  { induction l as [|x l IH]; [done|]. simpl. by rewrite insert_by_date_perm, IH. }
  rewrite (H _). by rewrite (numbered_rows id).
Qed.

Lemma sort_values_date_sorted (frame : list MoodRecord) :
  StronglySorted (λ a b, (date a ≤ date b)%Z) (sort_values_date before frame).
Proof.
  unfold sort_values_date.
  apply (StronglySorted_fmap snd (λ a b, (date a.2 ≤ date b.2)%Z)); [done|].
  induction (imap (λ i r, (i, r)) frame) as [|x l IH]; simpl; [constructor|].
  by apply insert_by_date_sorted.
Qed.

(** X1. For at most 999999999 days either way and a cut-off date that
    exists (year 1 to 9999), [get_mood_history] returns exactly the rows of
    the log dated at or after today minus [days] days (each as often as it
    is in the log), in non-decreasing order of date, whatever order the
    sort gives to rows of equal date. Otherwise it raises OverflowError. *)
Theorem get_mood_history_sorted_window (df : list MoodRecord) (days today : Z) :
  ((-999999999 ≤ days ≤ 999999999)%Z →
   (0 ≤ today - days * 86400000000 ≤ DATETIME_MAX)%Z →
   ∃ history : list MoodRecord,
     get_mood_history before df days today = Ok history ∧
     StronglySorted (λ a b, (date a ≤ date b)%Z) history ∧
     history ≡ₚ filter (λ r, (today - days * 86400000000 ≤ date r)%Z) df ∧
     (∀ r, r ∈ history ↔ r ∈ df ∧ (today - days * 86400000000 ≤ date r)%Z)) ∧
  (¬ (-999999999 ≤ days ≤ 999999999)%Z
   ∨ ¬ (0 ≤ today - days * 86400000000 ≤ DATETIME_MAX)%Z →
   get_mood_history before df days today = Raise OverflowError).
Proof.
  unfold get_mood_history, timedelta, datetime_sub, timedelta_days.
  split.
  - intros Hdays Hcut. rewrite decide_True by done.
    cbv [mbind result_bind]. cbv beta iota. rewrite decide_True by done.
    eexists. split; [reflexivity|].
    split; [apply sort_values_date_sorted|].
    split; [apply sort_values_date_perm|].
    intros r. rewrite sort_values_date_perm. unfold since.
    rewrite list_elem_of_filter. tauto.
  - intros Hbad. destruct (decide (-999999999 ≤ days ≤ 999999999)%Z) as [Hd|Hd]; [|done].
    cbv [mbind result_bind]. cbv beta iota. rewrite decide_False; [done|].
    by destruct Hbad.
Qed.
End History.

Lemma get_mood_history_sorted_window_witness :
  (-999999999 ≤ 7 ≤ 999999999)%Z ∧
  (0 ≤ day 30 - 7 * 86400000000 ≤ DATETIME_MAX)%Z ∧
  (∃ history : list MoodRecord,
     get_mood_history (λ _ _, false) (sample_log 3) 7 (day 30) = Ok history ∧
     length history = 10) ∧
  get_mood_history (λ _ _, false) (sample_log 3) 1000000000 (day 30) = Raise OverflowError.
Proof.
  assert (H1 : (-999999999 ≤ 7 ≤ 999999999)%Z) by lia.
  assert (H2 : (0 ≤ day 30 - 7 * 86400000000 ≤ DATETIME_MAX)%Z) by (vm_compute; split; discriminate).
  split; [exact H1|]. split; [exact H2|]. split.
  - destruct (proj1 (get_mood_history_sorted_window (λ _ _, false) (sample_log 3) 7 (day 30))
                H1 H2) as (history & Hh & _ & Hperm & _).
    exists history. split; [exact Hh|]. by rewrite Hperm.
  - apply (proj2 (get_mood_history_sorted_window (λ _ _, false) (sample_log 3)
                    1000000000 (day 30))).
    left. lia.
Defined.

(** ** More on logging *)

Section Logging.
Context {ext : Externals}.
Implicit Types (text : list N) (self : engine) (w : write_outcome).

(** X12. [analyze_mood] answers the "please enter" value, without a label,
    exactly for the texts made of white space only. *)
Theorem analyze_mood_blank_iff text rnd :
  analyze_mood text rnd = Ok (None, 0%Q, "Please enter your feelings to get started.")
  ↔ Forall (λ c, isspace c = true) text.
Proof.
  rewrite <- strip_nil_iff. split; [|apply analyze_mood_blank].
  intros H. destruct (decide (strip text = [])) as [|Hne]; [done|exfalso].
  unfold analyze_mood in H. rewrite decide_False in H by done.
  destruct (sentiment_analyzer (take 512 text)); [|discriminate].
  destruct (emotion_analyzer (take 512 text)) as [[label score]|]; [|discriminate].
  cbv [mbind result_bind] in H. cbv beta iota in H. simpl fst in H. simpl snd in H.
  destruct (random_choice rnd _); discriminate.
Qed.

(** X13. When a pipeline raises on a text that is not blank, [log_mood]
    raises the same exception and leaves the log and the file untouched:
    no partial record is stored. This holds for the first pipeline too,
    whose result is not used. *)
Theorem log_mood_classifier_failure text rnd today w self (e : exn) :
  strip text ≠ [] →
  sentiment_analyzer (take 512 text) = Raise e
  ∨ (∃ sent, sentiment_analyzer (take 512 text) = Ok sent
             ∧ emotion_analyzer (take 512 text) = Raise e) →
  log_mood text rnd today w self = (Raise e, self).
Proof.
  intros Hne Hfail. unfold log_mood, analyze_mood. rewrite decide_False by done.
  destruct Hfail as [Hs|(sent & Hs & He)].
  - by rewrite Hs.
  - by rewrite Hs, He.
Qed.

(** X14. Only the first 512 characters of a text reach the pipelines: two
    non-blank texts that agree on them are analysed alike. *)
Theorem analyze_mood_prefix text text' rnd :
  strip text ≠ [] → strip text' ≠ [] →
  take 512 text = take 512 text' →
  analyze_mood text rnd = analyze_mood text' rnd.
Proof.
  intros H1 H2 Hpre. unfold analyze_mood.
  rewrite !decide_False by done. by rewrite Hpre.
Qed.

(** The advice lists of the three labels. *)
Lemma advice_templates (label : string) :
  (mood_of label = "POSITIVE" ∧
   default ["Stay mindful."] (advice_map !! mood_of label) =
     ["Amazing! Keep channeling this positive energy! 🌟";
      "Your optimism is contagious. Share it with others!";
      "Keep doing what you're doing. You're thriving!"]) ∨
  (mood_of label = "NEGATIVE" ∧
   default ["Stay mindful."] (advice_map !! mood_of label) =
     ["It's okay to feel down. Consider talking to someone. 💙";
      "Take a 15-minute walk or practice deep breathing.";
      "Reach out to a friend or therapist. You're not alone.";
      "Try journaling or meditation to process these feelings."]) ∨
  (mood_of label = "NEUTRAL" ∧
   default ["Stay mindful."] (advice_map !! mood_of label) =
     ["Keep journaling daily for better insights! 📝";
      "How can you make today a bit better?";
      "Your feelings matter. Keep tracking them."]).
Proof.
  destruct (mood_of_cases label) as [E | [E | E]]; rewrite E.
  - left. split; [done|]. vm_compute. reflexivity.
  - right; left. split; [done|]. vm_compute. reflexivity.
  - right; right. split; [done|]. vm_compute. reflexivity.
Qed.

(** X15. A successful [log_mood] returns the label, the score and an advice
    drawn from the list of that label (never the fall-back advice), stores
    them in the new row, and leaves a file that holds exactly the rows in
    memory, whatever the file held before. *)
Theorem log_mood_written text rnd today self (sent : string * Q) (label : string) (score : Q) :
  strip text ≠ [] →
  sentiment_analyzer (take 512 text) = Ok sent →
  emotion_analyzer (take 512 text) = Ok (label, score) →
  ∃ a : string,
    a ∈ default ["Stay mindful."] (advice_map !! mood_of label) ∧
    a ≠ "Stay mindful." ∧
    log_mood text rnd today WriteOk self =
      (Ok (Some (mood_of label), score, a),
       {| self_df := self_df self ++
            [{| date := today; entry := take 200 text; mood := mood_of label;
                confidence := score; advice := a; alert_level := "LOW" |}];
          durable := Some (to_row <$> self_df self ++
            [{| date := today; entry := take 200 text; mood := mood_of label;
                confidence := score; advice := a; alert_level := "LOW" |}]) |}).
Proof.
  intros Hne Hs He.
  destruct (random_choice_ok rnd (default ["Stay mindful."] (advice_map !! mood_of label)))
    as (a & Ha & Hin).
  { destruct (advice_templates label) as [[_ ->] | [[_ ->] | [_ ->]]]; discriminate. }
  exists a. split; [exact Hin|]. split.
  - intros ->.
    destruct (advice_templates label) as [[_ E] | [[_ E] | [_ E]]];
      rewrite E in Hin; repeat (apply elem_of_cons in Hin as [Hin|Hin]; [discriminate|]);
      by apply elem_of_nil in Hin.
  - unfold log_mood, analyze_mood. rewrite decide_False by done.
    rewrite Hs, He. cbv [mbind result_bind]. cbv beta iota. simpl fst. simpl snd.
    by rewrite Ha.
Qed.

End Logging.

Lemma log_mood_classifier_failure_witness :
  strip [104; 105]%N ≠ [] ∧
  @log_mood offline_externals [104; 105]%N 0 (day 30) WriteOk sample_engine
    = (Raise RuntimeError, sample_engine).
Proof.
  assert (H : strip [104; 105]%N ≠ []) by (vm_compute; discriminate).
  split; [exact H|].
  exact (@log_mood_classifier_failure offline_externals [104; 105]%N 0 (day 30) WriteOk
           sample_engine RuntimeError H (or_introl eq_refl)).
Defined.

Lemma analyze_mood_prefix_witness :
  strip (long_text 105) ≠ [] ∧ strip (long_text 106) ≠ [] ∧
  take 512 (long_text 105) = take 512 (long_text 106) ∧
  @analyze_mood sample_externals (long_text 105) 0
    = @analyze_mood sample_externals (long_text 106) 0.
Proof.
  assert (H1 : strip (long_text 105) ≠ []) by (vm_compute; discriminate).
  assert (H2 : strip (long_text 106) ≠ []) by (vm_compute; discriminate).
  assert (H3 : take 512 (long_text 105) = take 512 (long_text 106)) by (vm_compute; reflexivity).
  split; [exact H1|]. split; [exact H2|]. split; [exact H3|].
  exact (@analyze_mood_prefix sample_externals _ _ 0 H1 H2 H3).
Defined.

Lemma log_mood_written_witness :
  strip [104; 105]%N ≠ [] ∧
  ∃ a : string,
    a ≠ "Stay mindful." ∧
    (@log_mood sample_externals [104; 105]%N 0 (day 30) WriteOk sample_engine).1
      = Ok (Some "NEGATIVE", 9 # 10, a).
Proof.
  assert (H : strip [104; 105]%N ≠ []) by (vm_compute; discriminate).
  split; [exact H|].
  destruct (@log_mood_written sample_externals [104; 105]%N 0 (day 30) sample_engine
              ("POSITIVE", 9 # 10) "NEGATIVE" (9 # 10) H eq_refl eq_refl)
    as (a & _ & Hne & Hlog).
  exists a. split; [exact Hne|]. by rewrite Hlog.
Defined.

Lemma analyze_mood_blank_iff_witness :
  Forall (λ c, isspace c = true) [32; 9; 160; 12288]%N ∧
  @analyze_mood sample_externals [32; 9; 160; 12288]%N 0
    = Ok (None, 0%Q, "Please enter your feelings to get started.").
Proof.
  assert (H : Forall (λ c, isspace c = true) [32; 9; 160; 12288]%N)
    by (repeat constructor).
  split; [exact H|].
  exact (proj2 (@analyze_mood_blank_iff sample_externals _ 0) H).
Defined.

(** ** More on the report *)

(** [_get_recommendation] on a dictionary whose total_entries is an
    integer. *)
Lemma recommendation_eval (stats : gmap string pyval) (n : Z) :
  stats !! "total_entries" = Some (VInt n) →
  _get_recommendation stats =
    if decide (n < 7)%Z then
      Ok "Keep logging your mood daily to get personalized insights!"
    else
      match stats !! "positive_percentage" with
      | None => Raise (KeyError "positive_percentage")
      | Some pv =>
          match as_number pv with
          | Raise e => Raise e
          | Ok p =>
              if Qle_bool 70 p then
                Ok "Great work! Maintain your current positive momentum! 🎉"
              else if Qle_bool p 30 then
                Ok "Consider reaching out to a mental health professional. Your wellbeing matters! 💙"
              else Ok "Your mood is balanced. Keep tracking and stay mindful!"
          end
      end.
Proof.
  intros Ht. unfold _get_recommendation, getitem. rewrite Ht.
  cbv [mbind result_bind]. change (as_number (VInt n)) with (Ok (inject_Z n)).
  cbv beta iota.
  destruct (decide (n < 7)%Z) as [Hn|Hn].
  - apply (Qlt_bool_inject_Z n 7) in Hn. change (inject_Z 7) with 7%Q in Hn.
    by rewrite Hn.
  - assert (Hge : Qlt_bool (inject_Z n) 7 = false).
    { destruct (Qlt_bool (inject_Z n) 7) eqn:E; [|done].
      apply (Qlt_bool_inject_Z n 7) in E. lia. }
    rewrite Hge. destruct (stats !! "positive_percentage") as [pv|]; [|done].
    destruct (as_number pv) as [p|e]; [|done].
    by destruct (Qle_bool 70 p).
Qed.

(** X16. What [_get_recommendation] does with a dictionary that lacks a
    key. Without total_entries it raises KeyError for that key. With at
    least 7 entries and no positive_percentage it raises KeyError for
    positive_percentage; with fewer than 7 entries the missing
    positive_percentage is never looked at. *)
Theorem recommendation_missing_key (stats : gmap string pyval) :
  (stats !! "total_entries" = None →
     _get_recommendation stats = Raise (KeyError "total_entries")) ∧
  (∀ n : Z,
     stats !! "total_entries" = Some (VInt n) →
     stats !! "positive_percentage" = None →
     _get_recommendation stats =
       if decide (n < 7)%Z
       then Ok "Keep logging your mood daily to get personalized insights!"
       else Raise (KeyError "positive_percentage")).
Proof.
  split.
  - intros H. unfold _get_recommendation, getitem. by rewrite H.
  - intros n Ht Hp. rewrite (recommendation_eval stats n Ht). by rewrite Hp.
Qed.

Lemma recommendation_missing_key_witness :
  _get_recommendation ∅ = Raise (KeyError "total_entries") ∧
  _get_recommendation (<["total_entries" := VInt 10]> ∅)
    = Raise (KeyError "positive_percentage").
Proof.
  split.
  - exact (proj1 (recommendation_missing_key ∅) eq_refl).
  - exact (proj2 (recommendation_missing_key (<["total_entries" := VInt 10]> ∅)) 10%Z
             eq_refl eq_refl).
Defined.

Lemma recommendation_of_stats (df : list MoodRecord) :
  ∃ rec : string,
    _get_recommendation (get_mood_stats df) = Ok rec ∧
    (length df < 7 → rec = "Keep logging your mood daily to get personalized insights!") ∧
    rec ∈ ["Keep logging your mood daily to get personalized insights!";
           "Great work! Maintain your current positive momentum! 🎉";
           "Consider reaching out to a mental health professional. Your wellbeing matters! 💙";
           "Your mood is balanced. Keep tracking and stay mindful!"].
Proof.
  destruct df as [|r df].
  - eexists. split; [vm_compute; reflexivity|]. split; [done|]. apply list_elem_of_here.
  - destruct (stats_lookup_nonempty (r :: df)) as (Ht & _ & _ & _ & Hp & _); [done|].
    rewrite (recommendation_eval _ _ Ht), Hp. cbv [as_number].
    destruct (decide (Z.of_nat (length (r :: df)) < 7)%Z) as [Hn|Hn].
    + eexists. split; [reflexivity|]. split; [done|]. apply list_elem_of_here.
    + destruct (Qle_bool 70 _); [|destruct (Qle_bool _ 30)];
        (eexists; split; [reflexivity|]; split; [intros; lia|]).
      * do 1 apply list_elem_of_further. apply list_elem_of_here.
      * do 2 apply list_elem_of_further. apply list_elem_of_here.
      * do 3 apply list_elem_of_further. apply list_elem_of_here.
Qed.

(** X2. [export_report] never raises, whatever the log (the empty log
    included, whose statistics lack positive_percentage): it returns the
    statistics of [get_mood_stats], the alert of [check_alert] and one of
    the four recommendation templates. *)
Theorem export_report_total {ext : Externals} (df : list MoodRecord) (t1 t2 : Z) :
  ∃ rec : string,
    export_report df t1 t2 =
      Ok {| timestamp := isoformat t2; statistics := get_mood_stats df;
            alert := check_alert df t1; recommendation := rec |} ∧
    rec ∈ ["Keep logging your mood daily to get personalized insights!";
           "Great work! Maintain your current positive momentum! 🎉";
           "Consider reaching out to a mental health professional. Your wellbeing matters! 💙";
           "Your mood is balanced. Keep tracking and stay mindful!"].
Proof.
  destruct (recommendation_of_stats df) as (rec & Hrec & _ & Hin).
  exists rec. split; [|exact Hin].
  unfold export_report. cbv zeta. by rewrite Hrec.
Qed.

(** X3. For a log of fewer than 7 records the report is fixed apart from
    its statistics: the alert is (False, LOW, "Not enough data yet.") and
    the recommendation is the keep-logging prompt. *)
Theorem export_report_short_log {ext : Externals} (df : list MoodRecord) (t1 t2 : Z) :
  length df < 7 →
  export_report df t1 t2 =
    Ok {| timestamp := isoformat t2; statistics := get_mood_stats df;
          alert := (false, "LOW", "Not enough data yet.");
          recommendation := "Keep logging your mood daily to get personalized insights!" |}.
Proof.
  intros Hlen.
  destruct (recommendation_of_stats df) as (rec & Hrec & Hshort & _).
  unfold export_report. cbv zeta. rewrite Hrec, (Hshort Hlen).
  unfold check_alert. by rewrite decide_True.
Qed.

Lemma export_report_short_log_witness :
  length (replicate 5 (row 29 "NEGATIVE")) < 7 ∧
  recommendation <$> @export_report sample_externals (replicate 5 (row 29 "NEGATIVE")) (day 30) (day 30)
    = Ok "Keep logging your mood daily to get personalized insights!".
Proof.
  assert (H : length (replicate 5 (row 29 "NEGATIVE")) < 7) by (vm_compute; lia).
  split; [exact H|].
  by rewrite (@export_report_short_log sample_externals _ (day 30) (day 30) H).
Defined.

(** ** The pages *)

(** X19. The banner of the Health Alert page agrees with [check_alert]:
    its last branch, taken for every severity other than CRITICAL and
    HIGH and titled MEDIUM ALERT, is only reached with severity MEDIUM;
    and a window of fewer than 7 records is shown as a stable mood. *)
Theorem health_alert_banner_matches (df : list MoodRecord) (now : Z) :
  ∃ (triggered : bool) (severity msg : string),
    check_alert df now = (triggered, severity, msg) ∧
    ((triggered = false ∧
      health_alert_banner (check_alert df now)
        = [StSuccess "✅ **Your mood is stable. Great job!**"]) ∨
     (triggered = true ∧ severity = "CRITICAL" ∧
      health_alert_banner (check_alert df now)
        = [StError "🚨 **CRITICAL ALERT**"; StMarkdown ("**Status:** " +:+ msg)]) ∨
     (triggered = true ∧ severity = "HIGH" ∧
      health_alert_banner (check_alert df now)
        = [StWarning "⚠️ **HIGH ALERT**"; StMarkdown ("**Status:** " +:+ msg)]) ∨
     (triggered = true ∧ severity = "MEDIUM" ∧
      health_alert_banner (check_alert df now)
        = [StInfo "ℹ️ **MEDIUM ALERT**"; StMarkdown ("**Status:** " +:+ msg)])) ∧
    (length (spec_window df now) < 7 →
     health_alert_banner (check_alert df now)
       = [StSuccess "✅ **Your mood is stable. Great job!**"]).
Proof.
  destruct (check_alert_cases df now)
    as [(Hs & msg & E) | [(Hs & Hn & msg & E) | [(Hs & Hn & _ & msg & E)
        | [(Hs & Hn & _ & msg & E) | (Hs & Hn & E)]]]];
    rewrite E; eexists _, _, _; (split; [reflexivity|]).
  - split; [by left|done].
  - split; [right; left; done|intros; lia].
  - split; [right; right; left; done|intros; lia].
  - split; [right; right; right; done|intros; lia].
  - split; [by left|done].
Qed.

Lemma health_alert_banner_matches_witness :
  length (spec_window (replicate 5 (row 29 "NEGATIVE")) (day 30)) < 7 ∧
  health_alert_banner (check_alert (replicate 5 (row 29 "NEGATIVE")) (day 30))
    = [StSuccess "✅ **Your mood is stable. Great job!**"].
Proof.
  assert (H : length (spec_window (replicate 5 (row 29 "NEGATIVE")) (day 30)) < 7)
    by (vm_compute; lia).
  split; [exact H|].
  destruct (health_alert_banner_matches (replicate 5 (row 29 "NEGATIVE")) (day 30))
    as (t & sev & msg & _ & _ & Hshort).
  exact (Hshort H).
Defined.

Section PageProperties.
Context {ext : Externals} {fmt : Formatting}.

(** X20. Pressing "Analyze Mood" on a classified entry whose write succeeds
    stores the record and shows the success message, the three cards and
    the suggestion, followed by the alert that [check_alert] gives for
    the log with the new record in it. *)
Theorem on_analyze_mood_logged (text : list N) (rnd : nat) (today_log today_card today_alert : Z)
    (ai : engine) (sent : string * Q) (label : string) (score : Q) :
  strip text ≠ [] →
  sentiment_analyzer (take 512 text) = Ok sent →
  emotion_analyzer (take 512 text) = Ok (label, score) →
  ∃ a : string,
    let r := {| date := today_log; entry := take 200 text; mood := mood_of label;
                confidence := score; advice := a; alert_level := "LOW" |} in
    on_analyze_mood text rnd today_log WriteOk today_card today_alert ai =
      (([StSuccess "✅ Mood logged successfully!";
         StMetric (mood_emoji (Some (mood_of label)) +:+ " Detected Mood")
                  (Some (VStr (mood_of label))) None;
         StMetric "🎯 Confidence" (Some (VStr (format_pct1 score))) None;
         StMetric "📅 Date" (Some (VStr (strftime_ymd today_card))) None;
         StInfo ("💡 **Suggestion:** " +:+ a)]
        ++ alert_after_logging (check_alert (self_df ai ++ [r]) today_alert),
        Ok ()),
       {| self_df := self_df ai ++ [r];
          durable := Some (to_row <$> self_df ai ++ [r]) |}).
Proof.
  intros Hne Hs He.
  destruct (log_mood_classified text rnd today_log WriteOk ai sent label score Hne Hs He)
    as [a Ha]. cbv zeta in Ha.
  exists a. cbv zeta. unfold on_analyze_mood. rewrite decide_False by done.
  rewrite Ha. simpl.
  by destruct (alert_after_logging _).
Qed.

(** X21. When nothing can be logged. A blank entry shows the "please
    write" error and leaves the engine untouched; a classified entry
    whose write fails shows nothing, lets the exception escape, and
    leaves the new record in the in-memory log. *)
Theorem on_analyze_mood_not_logged (text : list N) (rnd : nat)
    (today_log today_card today_alert : Z) (ai : engine) :
  (∀ w, strip text = [] →
     on_analyze_mood text rnd today_log w today_card today_alert ai
     = (([StError "❌ Please write something about your feelings first!"], Ok ()), ai)) ∧
  (∀ (e : exn) (left_behind : option (list csv_row)) (sent : string * Q)
     (label : string) (score : Q),
     strip text ≠ [] →
     sentiment_analyzer (take 512 text) = Ok sent →
     emotion_analyzer (take 512 text) = Ok (label, score) →
     ∃ a : string,
       on_analyze_mood text rnd today_log (WriteFails e left_behind)
         today_card today_alert ai
       = (([], Raise e),
          {| self_df := self_df ai ++
               [{| date := today_log; entry := take 200 text; mood := mood_of label;
                   confidence := score; advice := a; alert_level := "LOW" |}];
             durable := left_behind |})).
Proof.
  split.
  - intros w H. unfold on_analyze_mood. by rewrite decide_True.
  - intros e left_behind sent label score Hne Hs He.
    destruct (log_mood_classified text rnd today_log (WriteFails e left_behind) ai
                sent label score Hne Hs He) as [a Ha]. cbv zeta in Ha.
    exists a. unfold on_analyze_mood. rewrite decide_False by done. by rewrite Ha.
Qed.

(** X22. The statistics cards of the Dashboard page. On the empty log the
    first card is shown and then the script raises
    KeyError('positive_percentage'); on any other log the four cards and
    the rule are shown and nothing is raised, the cards carrying the
    numbers, the percentage, the trend and the average that
    [get_mood_stats] returned. *)
Theorem dashboard_cards_of_log (df : list MoodRecord) :
  (df = [] →
     dashboard_cards (get_mood_stats df)
     = ([StMetric "📚 Total Entries" (Some (VInt 0)) (Some "Keep tracking!")],
        Raise (KeyError "positive_percentage"))) ∧
  (df ≠ [] →
     ∃ positive_percentage avg_confidence : Q,
       get_mood_stats df !! "positive_percentage" = Some (VFloat positive_percentage) ∧
       get_mood_stats df !! "avg_confidence" = Some (VFloat avg_confidence) ∧
       dashboard_cards (get_mood_stats df)
       = ([StMetric "📚 Total Entries" (Some (VInt (Z.of_nat (length df))))
             (Some (if decide (length df < 30) then "Keep tracking!"
                    else "Great consistency!"));
           StMetric "😊 Positive Days" (Some (VInt (Z.of_nat (count_mood "POSITIVE" df))))
             (Some (format_1f positive_percentage +:+ "%"));
           StMetric "📈 Trend" (Some (VStr (trend_of df))) None;
           StMetric "🎯 AI Accuracy" (Some (VStr (format_pct1 avg_confidence)))
             (Some "High confidence");
           StMarkdown "---"],
          Ok ())).
Proof.
  split.
  - intros ->. reflexivity.
  - intros Hne.
    destruct (stats_lookup_nonempty df Hne) as (Ht & Hp & _ & _ & Hpct & Hconf).
    assert (Htrend := stats_trend_lookup df ltac:(destruct df; simpl; [done|lia])).
    eexists _, _. split; [exact Hpct|]. split; [exact Hconf|].
    unfold dashboard_cards, getitem. rewrite Ht, Hp, Hpct, Hconf, Htrend.
    assert (Hdelta : Qlt_bool (inject_Z (Z.of_nat (length df))) 30
                     = if decide (length df < 30) then true else false).
    { destruct (decide (length df < 30)) as [H|H].
      - apply (Qlt_bool_inject_Z _ 30). lia.
      - destruct (Qlt_bool _ 30) eqn:E; [|done].
        apply (Qlt_bool_inject_Z _ 30) in E. lia. }
    cbv [mbind page_bind result_bind eval show as_number format_arg]. cbv beta iota.
    rewrite Hdelta. destruct (decide (length df < 30)); reflexivity.
Qed.
End PageProperties.

Lemma on_analyze_mood_logged_witness :
  strip [104; 105]%N ≠ [] ∧
  ∃ shown : list widget,
    (@on_analyze_mood sample_externals sample_formatting [104; 105]%N 0 (day 30) WriteOk
       (day 30) (day 30) sample_engine).1 = (shown, Ok ()) ∧
    length shown = 5.
Proof.
  assert (H : strip [104; 105]%N ≠ []) by (vm_compute; discriminate).
  split; [exact H|].
  destruct (@on_analyze_mood_logged sample_externals sample_formatting [104; 105]%N 0
              (day 30) (day 30) (day 30) sample_engine ("POSITIVE", 9 # 10) "NEGATIVE"
              (9 # 10) H eq_refl eq_refl) as (a & Ha).
  cbv zeta in Ha. rewrite Ha. eexists. split; [reflexivity|]. reflexivity.
Defined.

Lemma on_analyze_mood_not_logged_witness :
  strip [32; 32]%N = [] ∧
  @on_analyze_mood sample_externals sample_formatting [32; 32]%N 0 (day 30) WriteOk
    (day 30) (day 30) sample_engine
  = (([StError "❌ Please write something about your feelings first!"], Ok ()), sample_engine).
Proof.
  assert (H : strip [32; 32]%N = []) by reflexivity.
  split; [exact H|].
  exact (proj1 (@on_analyze_mood_not_logged sample_externals sample_formatting [32; 32]%N 0
                  (day 30) (day 30) (day 30) sample_engine) WriteOk H).
Defined.

Lemma dashboard_cards_of_log_witness :
  sample_log 3 ≠ [] ∧
  (@dashboard_cards sample_formatting (get_mood_stats (sample_log 3))).2 = Ok () ∧
  (@dashboard_cards sample_formatting (get_mood_stats [])).2
    = Raise (KeyError "positive_percentage").
Proof.
  assert (H : sample_log 3 ≠ []) by done.
  split; [exact H|]. split.
  - destruct (proj2 (@dashboard_cards_of_log sample_formatting (sample_log 3)) H)
      as (pct & conf & _ & _ & Hcards).
    by rewrite Hcards.
  - by rewrite (proj1 (@dashboard_cards_of_log sample_formatting []) eq_refl).
Defined.

(** ** Invariants of the engine *)

Section Invariants.
Context {ext : Externals}.

(** What [log_mood] adds to the frame: nothing, or one row dated [today]. *)
Lemma log_mood_added (text : list N) (rnd : nat) (today : Z) (w : write_outcome)
    (self : engine) :
  ∃ added,
    self_df (log_mood text rnd today w self).2 = self_df self ++ added ∧
    Forall (λ r, date r = today) added ∧
    (w = WriteOk → added ≠ [] → in_sync (log_mood text rnd today w self).2) ∧
    (added = [] → (log_mood text rnd today w self).2 = self).
Proof.
  unfold log_mood.
  destruct (analyze_mood text rnd) as [[[[m|] c] a]|e]; simpl.
  - exists [{| date := today; entry := take 200 text; mood := m;
                confidence := c; advice := a; alert_level := "LOW" |}].
    split; [by destruct w|]. split; [by repeat constructor|].
    split; [by intros ->|done].
  - exists []. rewrite app_nil_r. split; [done|]. split; [constructor|]. by split.
  - exists []. rewrite app_nil_r. split; [done|]. split; [constructor|]. by split.
Qed.

(** X17. As long as no write fails, the file mirrors the log: an engine
    whose file holds the rows in memory is still so after any sequence of
    calls. *)
Theorem in_sync_preserved (cs : list call) (self : engine) :
  in_sync self →
  Forall write_succeeds cs →
  in_sync (perform_all cs self).
Proof.
  intros Hsync Hok. revert self Hsync.
  induction Hok as [|c cs Hc _ IH]; intros self Hsync; [done|].
  unfold perform_all. simpl. fold (perform_all cs (perform c self).2).
  apply IH.
  destruct c as [text rnd today w| | | |]; simpl; try done.
  simpl in Hc. subst w.
  destruct (log_mood_added text rnd today WriteOk self) as (added & _ & _ & Hs & Hsame).
  destruct (log_mood text rnd today WriteOk self) as [res self'] eqn:E. simpl in *.
  destruct added as [|r added]; [by rewrite Hsame|]. by apply Hs.
Qed.

(** X18. When the clock does not run backwards, the log stays in date
    order: logging at a time not earlier than any stored date keeps the
    dates non-decreasing. *)
Theorem log_mood_keeps_date_order (text : list N) (rnd : nat) (today : Z)
    (w : write_outcome) (self : engine) :
  date_ordered (self_df self) →
  Forall (λ r, (date r ≤ today)%Z) (self_df self) →
  date_ordered (self_df (log_mood text rnd today w self).2) ∧
  Forall (λ r, (date r ≤ today)%Z) (self_df (log_mood text rnd today w self).2).
Proof.
  intros Hsorted Hle.
  destruct (log_mood_added text rnd today w self) as (added & -> & Hdate & _).
  assert (Hadded : Forall (λ r, (date r ≤ today)%Z) added).
  { eapply Forall_impl; [exact Hdate|]. simpl. intros; lia. }
  split; [|by apply Forall_app].
  unfold date_ordered. apply StronglySorted_app_2; [|done|].
  - intros a b Ha Hb.
    rewrite Forall_forall in Hle. rewrite Forall_forall in Hdate.
    specialize (Hle a Ha). specialize (Hdate b Hb). lia.
  - clear Hadded. induction Hdate as [|r added Hr Hrest IH]; constructor; [done|].
    eapply Forall_impl; [exact Hrest|]. simpl. intros; lia.
Qed.
End Invariants.

Lemma in_sync_preserved_witness :
  @in_sync sample_externals {| self_df := []; durable := Some [] |} ∧
  Forall write_succeeds [LogMood [104; 105]%N 0 (day 30) WriteOk; CheckAlert (day 30)] ∧
  @in_sync sample_externals
    (@perform_all sample_externals
       [LogMood [104; 105]%N 0 (day 30) WriteOk; CheckAlert (day 30)]
       {| self_df := []; durable := Some [] |}).
Proof.
  assert (H1 : @in_sync sample_externals {| self_df := []; durable := Some [] |})
    by reflexivity.
  assert (H2 : Forall write_succeeds
                 [LogMood [104; 105]%N 0 (day 30) WriteOk; CheckAlert (day 30)])
    by (repeat constructor).
  split; [exact H1|]. split; [exact H2|].
  exact (@in_sync_preserved sample_externals _ _ H1 H2).
Defined.

Lemma log_mood_keeps_date_order_witness :
  date_ordered (self_df sample_engine) ∧
  Forall (λ r, (date r ≤ day 30)%Z) (self_df sample_engine) ∧
  date_ordered
    (self_df (@log_mood sample_externals [104; 105]%N 0 (day 30) WriteOk sample_engine).2).
Proof.
  assert (H1 : date_ordered (self_df sample_engine)) by (repeat constructor).
  assert (H2 : Forall (λ r, (date r ≤ day 30)%Z) (self_df sample_engine)).
  { repeat constructor. vm_compute. discriminate. }
  split; [exact H1|]. split; [exact H2|].
  exact (proj1 (@log_mood_keeps_date_order sample_externals [104; 105]%N 0 (day 30) WriteOk
                  sample_engine H1 H2)).
Defined.

(** ** The percentage in the alert message *)



(** ** The rounded numbers at a tie *)

(** 23 NEGATIVE rows of 40: the exact percentage is 57.5, the binary64
    product is just below it, and the message says 57. *)
Example check_alert_23_of_40 :
  check_alert (replicate 23 (row 25 "NEGATIVE") ++ replicate 17 (row 26 "POSITIVE")) (day 30)
  = (true, "HIGH", "57% negative days detected.").
Proof. vm_compute. reflexivity. Qed.

(** 23 POSITIVE rows of 80: the exact percentage is 28.75, the binary64
    product is just below it, and positive_percentage is the binary64
    number nearest to 28.7. *)
Example positive_percentage_23_of_80 :
  get_mood_stats (replicate 23 (row 25 "POSITIVE") ++ replicate 57 (row 26 "NEGATIVE"))
    !! "positive_percentage"
  = Some (VFloat (Q_of_b64 (PrimFloat.div (b64_of_Z 287) (b64_of_Z 10)))).
Proof. vm_compute. reflexivity. Qed.

(** Two rows of one date come back in either order, as the sort decides. *)
Example sort_values_date_tie :
  sort_values_date (λ _ _, true) [row 1 "POSITIVE"; row 1 "NEGATIVE"]
    = [row 1 "POSITIVE"; row 1 "NEGATIVE"] ∧
  sort_values_date (λ _ _, false) [row 1 "POSITIVE"; row 1 "NEGATIVE"]
    = [row 1 "NEGATIVE"; row 1 "POSITIVE"].
Proof. split; vm_compute; reflexivity. Qed.
